(** * Build-time content sourcing of posthog.com: [gatsby/sourceNodes.ts]

    A shallow embedding of the [sourceNodes] hook.  The hook fetches five
    JSON feeds one after the other and hands one content node per record to
    Gatsby's [createNode].  JavaScript values are an inductive type, the
    hook's effects (requests issued, nodes created, exceptions) are a small
    state-and-error monad, and the functions that the hook receives or that
    live in other packages ([createNodeId], [createContentDigest],
    [MenuBuilder.buildStructure], [JSON.stringify], the network and the
    process environment) are the variables of the section [SourceNodes]. *)

From Stdlib Require Import String Ascii List ZArith Bool Lia DecimalString.
Import ListNotations.
Open Scope string_scope.
Set Warnings "-register-all".

(** ** Values *)

(** What [JSON.parse] can return, plus [undefined], which reading a missing
    property yields.  Numbers are the integers the feeds carry (issue
    numbers, comment counts), [VNum n] standing for the double nearest to
    [n]; the hook never computes with them, it only prints them, and a
    payload with a fractional number is outside this model.  An object
    keeps its properties in insertion order (the engine's moving of
    index-like keys to the front is not modelled); reading a key takes its
    first binding. *)
Inductive value : Type :=
| VUndefined
| VNull
| VBool (b : bool)
| VNum (n : Z)
| VStr (s : string)
| VArr (items : list value)
| VObj (props : list (string * value)).

Inductive exn : Type :=
| TypeError      (* a property read on null/undefined, a call of a non-function *)
| FetchError     (* the promise of [fetch] rejected *)
| SyntaxError    (* [res.json()] rejected: the body is not JSON *)
| LibraryError.  (* an exception raised inside an imported package *)

Inductive result (A : Type) : Type :=
| Ok (a : A)
| Throw (e : exn).
Arguments Ok {A} a.
Arguments Throw {A} e.

Module JS.

Definition nullish (v : value) : bool :=
  match v with VUndefined | VNull => true | _ => false end.

(** ToBoolean. *)
Definition truthy (v : value) : bool :=
  match v with
  | VUndefined | VNull => false
  | VBool b => b
  | VNum n => negb (n =? 0)%Z
  | VStr s => negb (s =? "")
  | VArr _ | VObj _ => true
  end.

Fixpoint lookup (k : string) (ps : list (string * value)) : option value :=
  match ps with
  | [] => None
  | (k', v) :: ps' => if k' =? k then Some v else lookup k ps'
  end.

Definition has_key (k : string) (v : value) : bool :=
  match v with
  | VObj ps => match lookup k ps with Some _ => true | None => false end
  | _ => false
  end.

(** [v.k] for a [v] that is neither null nor undefined, and for the keys
    the hook reads ([title], [url], [items], ...), none of which a
    built-in prototype defines: a primitive or an array has no such
    property. *)
Definition get (k : string) (v : value) : value :=
  match v with
  | VObj ps => match lookup k ps with Some x => x | None => VUndefined end
  | _ => VUndefined
  end.

(** [v.k], and the reads of a destructuring pattern [const { k } = v]:
    both throw on null and undefined. *)
Definition prop (k : string) (v : value) : result value :=
  if nullish v then Throw TypeError else Ok (get k v).

(** [v?.k] *)
Definition opt_prop (k : string) (v : value) : value :=
  if nullish v then VUndefined else get k v.

(** [o[k] = v] on a property list: an existing key keeps its place. *)
Fixpoint set (k : string) (v : value) (ps : list (string * value))
  : list (string * value) :=
  match ps with
  | [] => [(k, v)]
  | (k', v') :: ps' =>
      if k' =? k then (k', v) :: ps' else (k', v') :: set k v ps'
  end.

(** Number::toString on the number that [n] stands for.  An integer
    literal is read as the nearest double, ties to even; the double is
    printed with the fewest digits that read back as the same double, in
    plain form while it has at most 21 integer digits and in exponent form
    above ([1e+21]). *)
Definition decimal (n : Z) : string :=
  NilZero.string_of_int (Z.to_int n).

(** The double nearest to [m >= 0], [None] for Infinity. *)
Definition to_double (m : Z) : option Z :=
  if (m <? 9007199254740992)%Z then Some m
  else
    let shift := (Z.log2 m - 52)%Z in
    let q := Z.shiftr m shift in
    let r := (m - Z.shiftl q shift)%Z in
    let half := Z.shiftl 1 (shift - 1) in
    let q' := if (half <? r)%Z || ((r =? half)%Z && Z.odd q)
              then (q + 1)%Z else q in
    let x := Z.shiftl q' shift in
    if (x <? Z.shiftl 1 1024)%Z then Some x else None.

Definition reads_as (m x : Z) : bool :=
  match to_double m with
  | Some y => (y =? x)%Z
  | None => false
  end.

(** Digits [s] and exponent [e] with [s * 10^e] reading as the double [x]
    of [d] digits, for the least number [k] of digits of [s]; of two such
    [s], the one nearer to [x]. *)
Fixpoint shortest (fuel : nat) (k d x : Z) : Z * Z :=
  match fuel with
  | O => (x, 0%Z)
  | S fuel' =>
      let e := (d - k)%Z in
      if (e <=? 0)%Z then (x, 0%Z)
      else
        let p := (10 ^ e)%Z in
        let lo := (x / p)%Z in
        let hi := (lo + 1)%Z in
        match reads_as (lo * p) x, reads_as (hi * p) x with
        | true, true =>
            if (x - lo * p <=? hi * p - x)%Z then (lo, e) else (hi, e)
        | true, false => (lo, e)
        | false, true => (hi, e)
        | false, false => shortest fuel' (k + 1)%Z d x
        end
  end.

Fixpoint strip_zeros (fuel : nat) (s e : Z) : Z * Z :=
  match fuel with
  | O => (s, e)
  | S fuel' =>
      if (0 <? s)%Z && (s mod 10 =? 0)%Z
      then strip_zeros fuel' (s / 10)%Z (e + 1)%Z
      else (s, e)
  end.

Fixpoint zeros (n : nat) : string :=
  match n with
  | O => EmptyString
  | S n' => String "0" (zeros n')
  end.

(** [x > 0] a double. *)
Definition double_to_string (x : Z) : string :=
  let d := Z.of_nat (String.length (decimal x)) in
  let (s0, e0) := shortest 17 1 d x in
  let (s, e) := strip_zeros 400 s0 e0 in
  let digits := decimal s in
  let n := (Z.of_nat (String.length digits) + e)%Z in
  if (n <=? 21)%Z then digits ++ zeros (Z.to_nat e)
  else
    match digits with
    | String c EmptyString => String c ("e+" ++ decimal (n - 1))
    | String c more => String c ("." ++ more ++ "e+" ++ decimal (n - 1))
    | EmptyString => EmptyString
    end.

Definition number_to_string (n : Z) : string :=
  if (Z.abs n <? 9007199254740992)%Z then decimal n
  else
    match to_double (Z.abs n) with
    | None => if (n <? 0)%Z then "-Infinity" else "Infinity"
    | Some x =>
        if (n <? 0)%Z then String "-" (double_to_string x)
        else double_to_string x
    end.

Definition index_key (i : nat) : string :=
  number_to_string (Z.of_nat i).

Fixpoint indexed {A : Type} (f : A -> value) (i : nat) (l : list A)
  : list (string * value) :=
  match l with
  | [] => []
  | x :: l' => (index_key i, f x) :: indexed f (S i) l'
  end.

(** The own enumerable properties that a spread or a rest pattern copies:
    those of an object, the indices of an array or of a string, none for
    the other primitives. *)
Definition own_props (v : value) : list (string * value) :=
  match v with
  | VObj ps => ps
  | VArr l => indexed (fun x => x) 0 l
  | VStr s => indexed (fun c => VStr (String c EmptyString)) 0 (list_ascii_of_string s)
  | _ => []
  end.

(** [{ ...target, ...src }], with [target] the properties written so far. *)
Definition spread (target : list (string * value)) (src : value)
  : list (string * value) :=
  fold_left (fun acc p => set (fst p) (snd p) acc) (own_props src) target.

Definition mem (k : string) (ks : list string) : bool :=
  existsb (String.eqb k) ks.

(** The object bound by [...other] in [const { k1, k2, ...other } = v]. *)
Definition rest (ks : list string) (v : value) : value :=
  VObj (filter (fun p => negb (mem (fst p) ks)) (own_props v)).

(** ToString, as a template literal applies it.  An object from JSON
    prints as [[object Object]] unless it has a property [toString] of
    its own, which is then not callable; an array joins its elements. *)
Fixpoint to_string (v : value) : result string :=
  match v with
  | VUndefined => Ok "undefined"
  | VNull => Ok "null"
  | VBool true => Ok "true"
  | VBool false => Ok "false"
  | VNum n => Ok (number_to_string n)
  | VStr s => Ok s
  | VArr l =>
      let fix join (l : list value) : result string :=
        match l with
        | [] => Ok ""
        | x :: l' =>
            match (if nullish x then Ok "" else to_string x) with
            | Throw e => Throw e
            | Ok sx =>
                match l' with
                | [] => Ok sx
                | _ :: _ =>
                    match join l' with
                    | Throw e => Throw e
                    | Ok sl => Ok (sx ++ "," ++ sl)
                    end
                end
            end
        end in
      join l
  | VObj ps =>
      match lookup "toString" ps with
      | Some _ => Throw TypeError
      | None => Ok "[object Object]"
      end
  end.

(** [strip_prefix p s] is [Some r] when [s = p ++ r]. *)
Fixpoint strip_prefix (p s : string) : option string :=
  match p, s with
  | EmptyString, _ => Some s
  | String a p', String b s' =>
      if Ascii.eqb a b then strip_prefix p' s' else None
  | String _ _, EmptyString => None
  end.

(** [s.replace(pat, rep)] for a string [pat] and a [rep] without [$]
    patterns: the leftmost occurrence of [pat], compared character by
    character, is replaced. *)
Fixpoint replace_first (pat rep s : string) : string :=
  match strip_prefix pat s with
  | Some r => rep ++ r
  | None =>
      match s with
      | EmptyString => EmptyString
      | String c s' => String c (replace_first pat rep s')
      end
  end.

(** [v.replace(pat, rep)]: only a string has the method. *)
Definition replace (v : value) (pat rep : string) : result string :=
  match v with
  | VStr s => Ok (replace_first pat rep s)
  | _ => Throw TypeError
  end.

(** [pat] occurs somewhere in [s]. *)
Fixpoint occurs (pat s : string) : bool :=
  match strip_prefix pat s with
  | Some _ => true
  | None =>
      match s with
      | EmptyString => false
      | String _ s' => occurs pat s'
      end
  end.

End JS.

(** ** Effects *)

Record request : Type := mkRequest {
  req_url : string;
  req_headers : list (string * string)
}.

(** What [fetch(...).then((res) => res.json())] resolves to.  The HTTP
    status is not looked at: an error page with a JSON body is [Json]. *)
Inductive response : Type :=
| NetworkFailure
| NotJson
| Json (body : value).

(** The requests issued and the nodes passed to [createNode], oldest first. *)
Record world : Type := mkWorld {
  requests : list request;
  created : list value
}.

Definition empty_world : world := mkWorld [] [].

Definition M (A : Type) : Type := world -> result A * world.

Definition ret {A : Type} (a : A) : M A := fun w => (Ok a, w).

Definition bind {A B : Type} (m : M A) (k : A -> M B) : M B :=
  fun w =>
    match m w with
    | (Ok a, w') => k a w'
    | (Throw e, w') => (Throw e, w')
    end.

Definition lift {A : Type} (r : result A) : M A := fun w => (r, w).

Notation "x <- m ;; k" := (bind m (fun x => k))
  (at level 61, m at next level, right associativity).
Notation "m ;; k" := (bind m (fun _ => k))
  (at level 61, right associativity).

(** [r >>= f] on results alone, for the pure part of a loop body. *)
Definition rbind {A B : Type} (r : result A) (f : A -> result B) : result B :=
  match r with
  | Ok a => f a
  | Throw e => Throw e
  end.

Notation "'let*' x := r 'in' k" := (rbind r (fun x => k))
  (at level 61, x name, r at next level, right associativity).

Fixpoint rmap {A B : Type} (f : A -> result B) (l : list A) : result (list B) :=
  match l with
  | [] => Ok []
  | x :: l' =>
      let* y := f x in
      let* ys := rmap f l' in
      Ok (y :: ys)
  end.

Definition createNode (node : value) : M unit :=
  fun w => (Ok tt, mkWorld (requests w) (created w ++ [node])).

(** [xs.forEach(f)] on the elements of an array. *)
Fixpoint forEach (f : value -> M unit) (xs : list value) : M unit :=
  match xs with
  | [] => ret tt
  | x :: xs' => f x ;; forEach f xs'
  end.

(** A loop body that builds one node from its record and creates it. *)
Definition emit (node_of : value -> result value) (record : value) : M unit :=
  node <- lift (node_of record) ;;
  createNode node.

(** [v.forEach(f)]: only an array has the method. *)
Definition forEach_of (v : value) (f : value -> M unit) : M unit :=
  match v with
  | VArr xs => forEach f xs
  | _ => lift (Throw TypeError)
  end.

(** ** The hook *)

Definition schema_url : string := "https://app.posthog.com/api/schema/".
Definition issues_url : string :=
  "https://api.github.com/repos/posthog/posthog/issues?sort=comments&per_page=5".
Definition pulls_url : string :=
  "https://api.github.com/repos/posthog/posthog/pulls?sort=popularity&per_page=5".
Definition integrations_url : string :=
  "https://raw.githubusercontent.com/PostHog/integrations-repository/main/integrations.json".
Definition plugins_url : string :=
  "https://raw.githubusercontent.com/PostHog/integrations-repository/main/plugins.json".

(** The publisher's domain that the integration feed strips from [url]. *)
Definition site_domain : string := "https://posthog.com".

(** [url.replace('https://posthog.com', '')] on a string. *)
Definition rewrite_url (url : string) : string :=
  JS.replace_first site_domain "" url.

(** [internal: { type, contentDigest }] *)
Definition internal_of (type digest : string) : value :=
  VObj [("type", VStr type); ("contentDigest", VStr digest)].

Definition node_id (node : value) : value := JS.get "id" node.
Definition node_type (node : value) : value :=
  JS.get "type" (JS.get "internal" node).
Definition node_digest (node : value) : value :=
  JS.get "contentDigest" (JS.get "internal" node).

Section SourceNodes.

(** The arguments of the hook. *)
Variable createNodeId : string -> string.
Variable createContentDigest : value -> string.

(** [process.env.POSTHOG_APP_API_KEY] *)
Variable POSTHOG_APP_API_KEY : option string.

(** The answer of the network to each request of this build. *)
Variable network : request -> response.

(** redoc's [MenuBuilder.buildStructure(parser, options)], which returns
    an array of menu items or throws, and [JSON.stringify]. *)
Variable buildStructure : value -> value -> result (list value).
Variable JSON_stringify : value -> value.

(** [await fetch(url, { headers }).then((res) => res.json())] *)
Definition fetch_json (url : string) (headers : list (string * string))
  : M value :=
  fun w =>
    let r := mkRequest url headers in
    let w' := mkWorld (requests w ++ [r]) (created w) in
    match network r with
    | NetworkFailure => (Throw FetchError, w')
    | NotJson => (Throw SyntaxError, w')
    | Json v => (Ok v, w')
    end.

(** *** The API-schema feed (lines 8-47) *)

(** [({ ...item, operationSpec: item.operationSpec, parent: null })] *)
Definition operation_item (item : value) : result value :=
  let copied := JS.spread [] item in
  let* spec := JS.prop "operationSpec" item in
  Ok (VObj (JS.set "parent" VNull (JS.set "operationSpec" spec copied))).

(** [items.map((item) => ...)]: only an array has the method. *)
Definition map_items (items : value) : result value :=
  match items with
  | VArr l => let* l' := rmap operation_item l in Ok (VArr l')
  | _ => Throw TypeError
  end.

(** The node literal of lines 20-34, its properties evaluated in order. *)
Definition api_endpoint_node (endpoint : value) : result value :=
  let* name := JS.prop "name" endpoint in
  let* name_s := JS.to_string name in
  let id := createNodeId ("api_endpoint-" ++ name_s) in
  let* items := JS.prop "items" endpoint in
  let digest := createContentDigest (VObj [("items", items)]) in
  let* mapped := map_items items in
  let items_json := JSON_stringify mapped in
  let* schema := map_items items in
  let* dashed := JS.replace name "_" "-" in
  Ok (VObj [("id", VStr id);
            ("internal", internal_of "api_endpoint" digest);
            ("items", items_json);
            ("schema", schema);
            ("url", VStr ("/docs/api/" ++ dashed));
            ("name", name)]).

(** The node literal of lines 37-46. *)
Definition api_components_node (api_endpoints : value) : result value :=
  let id := createNodeId "api_endpoint-components" in
  let* components := JS.prop "components" api_endpoints in
  let digest := createContentDigest (VObj [("components", components)]) in
  Ok (VObj [("id", VStr id);
            ("internal", internal_of "ApiComponents" digest);
            ("components", JSON_stringify components)]).

(** The body of the [if] for a key [key]: lines 9-46. *)
Definition schema_feed_with (key : string) : M unit :=
  api_endpoints <- fetch_json schema_url
                     [("Authorization", "Bearer " ++ key);
                      ("accept", "application/json")] ;;
  menu <- lift (buildStructure (VObj [("spec", api_endpoints)]) (VObj [])) ;;
  all_endpoints <- lift (JS.prop "items" (last menu VUndefined)) ;;
  forEach_of all_endpoints (emit api_endpoint_node) ;;
  node <- lift (api_components_node api_endpoints) ;;
  createNode node.

(** [if (process.env.POSTHOG_APP_API_KEY) { ... }]: an unset variable is
    [undefined], and the empty string is falsy too. *)
Definition schema_feed : M unit :=
  match POSTHOG_APP_API_KEY with
  | Some key => if key =? "" then ret tt else schema_feed_with key
  | None => ret tt
  end.

(** *** Issues (lines 49-76) and pull requests (lines 78-104) *)

(** [{ username: user?.login, avatar: user?.avatar_url, url: user?.html_url }] *)
Definition author_of (user : value) : value :=
  VObj [("username", JS.opt_prop "login" user);
        ("avatar", JS.opt_prop "avatar_url" user);
        ("url", JS.opt_prop "html_url" user)].

(** The literal [data] of lines 54-64. *)
Definition issue_data (html_url title number comments user : value) : value :=
  VObj [("url", html_url);
        ("title", title);
        ("number", number);
        ("comments", comments);
        ("user", author_of user)].

Definition issue_node (issue : value) : result value :=
  let* html_url := JS.prop "html_url" issue in
  let* title := JS.prop "title" issue in
  let* number := JS.prop "number" issue in
  let* user := JS.prop "user" issue in
  let* comments := JS.prop "comments" issue in
  let data := issue_data html_url title number comments user in
  let* title_s := JS.to_string title in
  let id := createNodeId ("posthog-issue-" ++ title_s) in
  Ok (VObj (JS.spread
              [("id", VStr id);
               ("parent", VNull);
               ("children", VArr []);
               ("internal", internal_of "PostHogIssue" (createContentDigest data))]
              data)).

Definition normalize_issues (posthogIssues : value) : M unit :=
  forEach_of posthogIssues (emit issue_node).

Definition issues_feed : M unit :=
  posthogIssues <- fetch_json issues_url [] ;;
  normalize_issues posthogIssues.

(** The literal [data] of lines 83-92: no comment count. *)
Definition pull_data (html_url title number user : value) : value :=
  VObj [("url", html_url);
        ("title", title);
        ("number", number);
        ("user", author_of user)].

Definition pull_node (issue : value) : result value :=
  let* html_url := JS.prop "html_url" issue in
  let* title := JS.prop "title" issue in
  let* number := JS.prop "number" issue in
  let* user := JS.prop "user" issue in
  let data := pull_data html_url title number user in
  let* title_s := JS.to_string title in
  let id := createNodeId ("posthog-pull-" ++ title_s) in
  Ok (VObj (JS.spread
              [("id", VStr id);
               ("parent", VNull);
               ("children", VArr []);
               ("internal", internal_of "PostHogPull" (createContentDigest data))]
              data)).

Definition normalize_pulls (posthogPulls : value) : M unit :=
  forEach_of posthogPulls (emit pull_node).

Definition pulls_feed : M unit :=
  posthogPulls <- fetch_json pulls_url [] ;;
  normalize_pulls posthogPulls.

(** *** Integrations (lines 106-124) and plugins (lines 126-145) *)

Definition integration_node (integration : value) : result value :=
  let* name := JS.prop "name" integration in
  let* url := JS.prop "url" integration in
  let other := JS.rest ["name"; "url"] integration in
  let* name_s := JS.to_string name in
  let id := createNodeId ("integration-" ++ name_s) in
  let digest := createContentDigest integration in
  let* relative := JS.replace url site_domain "" in
  Ok (VObj (JS.spread
              [("id", VStr id);
               ("parent", VNull);
               ("children", VArr []);
               ("internal", internal_of "Integration" digest);
               ("url", VStr relative);
               ("name", name)]
              other)).

Definition normalize_integrations (integrations : value) : M unit :=
  forEach_of integrations (emit integration_node).

Definition integrations_feed : M unit :=
  integrations <- fetch_json integrations_url [] ;;
  normalize_integrations integrations.

(** [None] when [displayOnWebsiteLib] is falsy: the body creates nothing. *)
Definition plugin_node (plugin : value) : result (option value) :=
  let* displayOnWebsiteLib := JS.prop "displayOnWebsiteLib" plugin in
  let* name := JS.prop "name" plugin in
  let other := JS.rest ["displayOnWebsiteLib"; "name"] plugin in
  if JS.truthy displayOnWebsiteLib then
    let* name_s := JS.to_string name in
    let id := createNodeId ("plugin-" ++ name_s) in
    Ok (Some (VObj (JS.spread
                      [("id", VStr id);
                       ("parent", VNull);
                       ("children", VArr []);
                       ("internal", internal_of "Plugin" (createContentDigest plugin));
                       ("name", name)]
                      other)))
  else Ok None.

Definition plugin_body (plugin : value) : M unit :=
  node <- lift (plugin_node plugin) ;;
  match node with
  | Some n => createNode n
  | None => ret tt
  end.

Definition normalize_plugins (plugins : value) : M unit :=
  forEach_of plugins plugin_body.

Definition plugins_feed : M unit :=
  plugins <- fetch_json plugins_url [] ;;
  normalize_plugins plugins.

Definition sourceNodes : M unit :=
  schema_feed ;;
  issues_feed ;;
  pulls_feed ;;
  integrations_feed ;;
  plugins_feed.

End SourceNodes.

(** ** A sample host

    Concrete stand-ins for the hook's collaborators, on which the hook can
    be run: identifiers are the seed itself, and the digest is a printed
    form of the value that tells any two of the values below apart. *)
Module Sample.

Fixpoint show (v : value) : string :=
  match v with
  | VUndefined => "undefined"
  | VNull => "null"
  | VBool true => "true"
  | VBool false => "false"
  | VNum n => JS.number_to_string n
  | VStr s => "'" ++ s ++ "'"
  | VArr l =>
      "[" ++ (fix go (l : list value) : string :=
                match l with
                | [] => ""
                | x :: l' => show x ++ ";" ++ go l'
                end) l ++ "]"
  | VObj ps =>
      "{" ++ (fix go (ps : list (string * value)) : string :=
                match ps with
                | [] => ""
                | (k, x) :: ps' => k ++ ":" ++ show x ++ ";" ++ go ps'
                end) ps ++ "}"
  end.

Definition createNodeId (seed : string) : string := seed.
Definition createContentDigest (input : value) : string := show input.
Definition JSON_stringify (v : value) : value := VStr (show v).

(** A menu builder that returns the array under [spec.menu]. *)
Definition buildStructure (parser options : value) : result (list value) :=
  match JS.get "menu" (JS.get "spec" parser) with
  | VArr l => Ok l
  | _ => Throw LibraryError
  end.

(** The issue record of the specification's example. *)
Definition example_issue : value :=
  VObj [("html_url", VStr "https://github.com/x/y/issues/1");
        ("title", VStr "Bug");
        ("number", VNum 1);
        ("user", VObj [("login", VStr "a");
                       ("avatar_url", VStr "u");
                       ("html_url", VStr "p")]);
        ("comments", VNum 3)].

(** An issue record without a title, and a second record titled "Bug". *)
Definition untitled_issue : value :=
  VObj [("html_url", VStr "https://github.com/x/y/issues/2");
        ("number", VNum 2);
        ("comments", VNum 0)].

Definition second_bug : value :=
  VObj [("html_url", VStr "https://github.com/x/y/issues/7");
        ("title", VStr "Bug");
        ("number", VNum 7);
        ("comments", VNum 0)].

Definition example_pull : value :=
  VObj [("html_url", VStr "https://github.com/x/y/pull/4");
        ("title", VStr "Fix");
        ("number", VNum 4);
        ("user", VNull)].

Definition example_integration : value :=
  VObj [("name", VStr "Segment");
        ("url", VStr "https://posthog.com/docs/integrations/segment");
        ("type", VStr "source")].

Definition hidden_plugin : value :=
  VObj [("displayOnWebsiteLib", VBool false);
        ("name", VStr "Internal");
        ("url", VStr "https://github.com/x/internal")].

Definition shown_plugin : value :=
  VObj [("displayOnWebsiteLib", VBool true);
        ("name", VStr "GeoIP");
        ("url", VStr "https://github.com/x/geoip")].

(** Two endpoint groups with the same operations and different names. *)
Definition group_a : value := VObj [("name", VStr "a_b"); ("items", VArr [])].
Definition group_b : value := VObj [("name", VStr "c_d"); ("items", VArr [])].

(** A network on which every feed answers, and one on which the issue
    feed does not. *)
Definition network_ok (r : request) : response :=
  if req_url r =? issues_url then Json (VArr [example_issue])
  else if req_url r =? pulls_url then Json (VArr [example_pull])
  else if req_url r =? integrations_url then Json (VArr [example_integration])
  else if req_url r =? plugins_url then Json (VArr [hidden_plugin; shown_plugin])
  else NetworkFailure.

Definition network_issues_down (r : request) : response :=
  if req_url r =? issues_url then NetworkFailure else network_ok r.

Definition run (key : option string) (network : request -> response)
  : result unit * world :=
  sourceNodes createNodeId createContentDigest key network
    buildStructure JSON_stringify empty_world.

End Sample.

(** ** Vocabulary of the properties *)

(** ASCII lower case, and "[s] begins with [p] in any letter case". *)
Definition lower (c : ascii) : ascii :=
  let n := nat_of_ascii c in
  if andb (65 <=? n)%nat (n <=? 90)%nat then ascii_of_nat (n + 32) else c.

Fixpoint starts_with_ci (p s : string) : bool :=
  match p, s with
  | EmptyString, _ => true
  | String a p', String b s' =>
      andb (Ascii.eqb (lower a) (lower b)) (starts_with_ci p' s')
  | String _ _, EmptyString => false
  end.

Fixpoint drop_chars (n : nat) (s : string) : string :=
  match n, s with
  | O, _ => s
  | S n', String _ s' => drop_chars n' s'
  | S _, EmptyString => EmptyString
  end.

(** A loop body [b] that reads nothing of the world: on each record it
    either appends the nodes [g] computes or throws and leaves the world
    as it was. *)
Definition pure_body (b : value -> M unit) (g : value -> result (list value))
  : Prop :=
  forall x w,
    b x w = match g x with
            | Ok ns => (Ok tt, mkWorld (requests w) (created w ++ ns))
            | Throw e => (Throw e, w)
            end.

(** The nodes such a loop creates over [xs], up to the first record on
    which it throws, and how it ends. *)
Fixpoint collect (g : value -> result (list value)) (xs : list value)
  : list value * result unit :=
  match xs with
  | [] => ([], Ok tt)
  | x :: xs' =>
      match g x with
      | Ok ns => let (ms, r) := collect g xs' in ((ns ++ ms)%list, r)
      | Throw e => ([], Throw e)
      end
  end.

Definition one (f : value -> result value) (x : value) : result (list value) :=
  let* n := f x in Ok [n].

Definition opt (f : value -> result (option value)) (x : value)
  : result (list value) :=
  let* n := f x in Ok (match n with Some n' => [n'] | None => [] end).

(** A fetch that leaves its feed without a payload to loop over: the
    request fails, the body is not JSON, or the JSON is not an array. *)
Definition fetch_fails (r : response) : bool :=
  match r with
  | Json (VArr _) => false
  | _ => true
  end.

Definition is_object (v : value) : bool :=
  match v with VObj _ => true | _ => false end.

(** The natural key is missing, or it is a string. *)
Definition key_absent_or_string (k : string) (record : value) : bool :=
  match JS.get k record with
  | VUndefined | VStr _ => true
  | _ => false
  end.

Definition is_string (v : value) : bool :=
  match v with VStr _ => true | _ => false end.

(** The request of a feed that sends no headers. *)
Definition feed_request (url : string) : request := mkRequest url [].

(** What a feed does with the answer to its request: the nodes it creates
    and how it ends. *)
Definition feed_result (resp : response) (g : value -> result (list value))
  : list value * result unit :=
  match resp with
  | Json (VArr xs) => collect g xs
  | Json _ => ([], Throw TypeError)
  | NetworkFailure => ([], Throw FetchError)
  | NotJson => ([], Throw SyntaxError)
  end.

(** Records of the four catalogue feeds on which the loop bodies go
    through: an object whose natural key is a string or is missing (and,
    for an integration, whose [url] is a string). *)
Definition issue_record_ok (record : value) : bool :=
  is_object record && key_absent_or_string "title" record.

Definition integration_record_ok (record : value) : bool :=
  is_object record && key_absent_or_string "name" record
  && is_string (JS.get "url" record).

Definition plugin_record_ok (record : value) : bool :=
  is_object record && key_absent_or_string "name" record.

Definition displayed (plugin : value) : bool :=
  JS.truthy (JS.get "displayOnWebsiteLib" plugin).

(** The fields of a node besides Gatsby's own. *)
Definition node_fields (node : value) : value :=
  JS.rest ["id"; "parent"; "children"; "internal"] node.

Definition undefined_author : value :=
  VObj [("username", VUndefined); ("avatar", VUndefined); ("url", VUndefined)].

(** The fields that the specification's example expects. *)
Definition example_issue_fields : list (string * value) :=
  [("url", VStr "https://github.com/x/y/issues/1");
   ("title", VStr "Bug");
   ("number", VNum 1);
   ("comments", VNum 3);
   ("user", VObj [("username", VStr "a"); ("avatar", VStr "u"); ("url", VStr "p")])].

(** The identifier seeded with a type prefix and a natural key. *)
Definition seeded (createNodeId : string -> string) (prefix key : string)
  : value :=
  VStr (createNodeId (prefix ++ key)).

(** The request of the schema feed, and an answer to it that carries no
    JSON at all. *)
Definition schema_request (key : string) : request :=
  mkRequest schema_url
    [("Authorization", "Bearer " ++ key); ("accept", "application/json")].

Definition no_body (r : response) : bool :=
  match r with
  | Json _ => false
  | _ => true
  end.

(** The nodes of one type tag among those created. *)
Definition has_type (t : string) (node : value) : bool :=
  match node_type node with
  | VStr s => s =? t
  | _ => false
  end.

Definition nodes_of_type (t : string) (nodes : list value) : list value :=
  filter (has_type t) nodes.





(** An object as the engine holds it: no key twice. *)
Definition unique_keys (ps : list (string * value)) : Prop :=
  NoDup (map fst ps).

(** A schema whose menu ends with two endpoint groups, a network that
    serves it, and one that serves a schema with an empty menu. *)
Definition sample_schema : value :=
  VObj [("menu", VArr [VObj [("name", VStr "intro")];
                       VObj [("items", VArr [Sample.group_a; Sample.group_b])]]);
        ("components", VObj [("schemas", VObj [])])].

Definition sample_schema_network (r : request) : response :=
  if req_url r =? schema_url then Json sample_schema else NetworkFailure.

Definition empty_menu_network (r : request) : response :=
  if req_url r =? schema_url then Json (VObj [("menu", VArr [])])
  else NetworkFailure.

(** ** The question form: [components/CommunityQuestions/AskAQuestion.js] *)

Module AskAQuestion.

(** The two [useState] cells, the submitting flag as the calls of
    [setSubmitting] in [onSubmit] leave it, and what the component has sent
    out: the bodies posted and the events captured. *)
Record state : Type := mkState {
  timestamp : value;
  emailSubmitted : bool;
  isSubmitting : bool;
  posted : list (string * value);
  captured : list string
}.

(** [useState(null)], [useState(false)], nothing sent yet. *)
Definition initial : state := mkState VNull false false [] [].

(** [if (!values.field) { errors.field = 'Required' }] *)
Definition require (field : string) (values : value)
           (errors : list (string * value)) : list (string * value) :=
  if JS.truthy (JS.get field values) then errors
  else JS.set field (VStr "Required") errors.

(** The [validate] prop of lines 23-38. *)
Definition validate (values : value) : result value :=
  if JS.nullish values then Throw TypeError
  else
    Ok (VObj (require "email" values
                (require "question" values
                   (require "subject" values
                      (require "name" values []))))).

(** [{ ...values, slug: location.pathname, timestamp }] of lines 42-46. *)
Definition submit_body (pathname : string) (values : value) (st : state)
  : value :=
  VObj (JS.set "timestamp" (timestamp st)
          (JS.set "slug" (VStr pathname) (JS.spread [] values))).

Definition endpoint : string := "/.netlify/functions/ask-a-question".

(** [onSubmit] of lines 39-55, followed to the end of its promise chain:
    [answer] is what the POST resolves to. *)
Definition onSubmit (JSON_stringify : value -> value) (answer : response)
           (pathname : string) (values : value) (st : state)
  : result unit * state :=
  if JS.nullish values then (Throw TypeError, st)
  else if JS.truthy (JS.get "mary-chain" values) then (Ok tt, st)
  else
    let body := JSON_stringify (submit_body pathname values st) in
    let sent :=
      mkState (timestamp st) (emailSubmitted st) true
              (posted st ++ [(endpoint, body)]) (captured st) in
    match answer with
    | NetworkFailure => (Throw FetchError, sent)
    | NotJson => (Throw SyntaxError, sent)
    | Json data =>
        let asked :=
          mkState (timestamp sent) (emailSubmitted sent) (isSubmitting sent)
                  (posted sent) (captured sent ++ ["Question asked"]) in
        if JS.nullish data then (Throw TypeError, asked)
        else
          (Ok tt,
           mkState (JS.get "timestamp" data) true false
                   (posted asked) (captured asked))
    end.

(** The render prop of lines 57-73 picks one of two children. *)
Inductive view : Type :=
| AskQuestion
| QuestionSubmitted.

Definition render (st : state) : view :=
  if JS.truthy (timestamp st) then QuestionSubmitted else AskQuestion.

Definition form_fields : list string := ["name"; "subject"; "question"; "email"].

End AskAQuestion.

(** Values of a filled form, with a field named slug of their own. *)
Definition sample_values : value :=
  VObj [("name", VStr "Ada"); ("question", VStr "How?"); ("email", VStr "a@b.c");
        ("subject", VStr "Hi"); ("mary-chain", VStr ""); ("slug", VStr "/forged")].

(** ** The embedded frame of the docs layout: [components/Docs/Layout.tsx] *)

Module DocsLayout.

(** A React element: its type, its props and its children. *)
Inductive element : Type :=
| Element (tag : string) (props : list (string * value)) (children : list element).

(** [src.indexOf('youtube.com') !== -1]: a substring search on a string,
    a search for an equal element on an array; nothing else has the
    method. *)
Definition mentions_youtube (src : value) : result bool :=
  match src with
  | VStr s => Ok (JS.occurs "youtube.com" s)
  | VArr l =>
      Ok (existsb (fun x => match x with
                            | VStr s => s =? "youtube.com"
                            | _ => false
                            end) l)
  | _ => Throw TypeError
  end.

Definition frame_style : value :=
  VObj [("position", VStr "relative");
        ("height", VNum 0);
        ("paddingBottom", VStr "56.25%")].

Definition frame_class : string := "absolute top-0 left-0 w-full h-full".

(** [Iframe] of lines 22-32. *)
Definition Iframe (props : list (string * value)) : result element :=
  let src := JS.get "src" (VObj props) in
  let* wrap := (if JS.truthy src then mentions_youtube src else Ok false) in
  if wrap then
    Ok (Element "div" [("style", frame_style)]
          [Element "iframe"
             (JS.set "className" (VStr frame_class) (JS.spread [] (VObj props)))
             []])
  else Ok (Element "iframe" (JS.spread [] (VObj props)) []).

End DocsLayout.

(** ** Strings *)

Lemma strip_prefix_app (p r : string) : JS.strip_prefix p (p ++ r) = Some r.
Proof.
  induction p as [|a p IH]; simpl.
  - reflexivity.
  - rewrite Ascii.eqb_refl. exact IH.
Qed.

Lemma strip_prefix_sound (p : string) :
  forall s r, JS.strip_prefix p s = Some r -> s = p ++ r.
Proof.
  induction p as [|a p IH]; intros s r H; simpl in *.
  - now inversion H.
  - destruct s as [|b s]; [discriminate|].
    destruct (Ascii.eqb a b) eqn:E; [|discriminate].
    apply Ascii.eqb_eq in E. subst b. f_equal. now apply IH.
Qed.

Lemma replace_first_unfold (pat rep s : string) :
  JS.replace_first pat rep s =
  match JS.strip_prefix pat s with
  | Some r => rep ++ r
  | None =>
      match s with
      | EmptyString => EmptyString
      | String c s' => String c (JS.replace_first pat rep s')
      end
  end.
Proof. destruct s; reflexivity. Qed.

Lemma occurs_unfold (pat s : string) :
  JS.occurs pat s =
  match JS.strip_prefix pat s with
  | Some _ => true
  | None =>
      match s with
      | EmptyString => false
      | String _ s' => JS.occurs pat s'
      end
  end.
Proof. destruct s; reflexivity. Qed.

Lemma replace_first_prefix (pat rep r : string) :
  JS.replace_first pat rep (pat ++ r) = rep ++ r.
Proof. now rewrite replace_first_unfold, strip_prefix_app. Qed.

Lemma replace_first_absent (pat rep : string) :
  forall s, JS.occurs pat s = false -> JS.replace_first pat rep s = s.
Proof.
  induction s as [|c s IH]; intros H;
    rewrite occurs_unfold in H; rewrite replace_first_unfold;
    destruct (JS.strip_prefix pat _); try discriminate.
  - reflexivity.
  - now rewrite IH.
Qed.

Lemma occurs_replace_first (pat rep : string) :
  forall s, JS.occurs pat s = true ->
            exists pre post,
              s = pre ++ pat ++ post /\
              JS.replace_first pat rep s = pre ++ rep ++ post.
Proof.
  induction s as [|c s IH]; intros H;
    rewrite occurs_unfold in H; rewrite replace_first_unfold;
    destruct (JS.strip_prefix pat _) as [r|] eqn:E; try discriminate.
  - exists "", r. split; [simpl; now apply strip_prefix_sound | reflexivity].
  - exists "", r. split; [simpl; now apply strip_prefix_sound | reflexivity].
  - destruct (IH H) as (pre & post & -> & ->).
    exists (String c pre), post. split; reflexivity.
Qed.

(** ** Objects *)

Lemma lookup_set_same (k : string) (v : value) :
  forall ps, JS.lookup k (JS.set k v ps) = Some v.
Proof.
  induction ps as [|[k' v'] ps IH]; simpl.
  - now rewrite String.eqb_refl.
  - destruct (k' =? k) eqn:E; simpl; rewrite E; [reflexivity | exact IH].
Qed.

Lemma lookup_set_other (k k' : string) (v : value) :
  k' <> k -> forall ps, JS.lookup k (JS.set k' v ps) = JS.lookup k ps.
Proof.
  intros Hne. induction ps as [|[k0 v0] ps IH]; simpl.
  - apply String.eqb_neq in Hne. now rewrite Hne.
  - destruct (k0 =? k') eqn:E; simpl.
    + apply String.eqb_eq in E. subst k0.
      apply String.eqb_neq in Hne. now rewrite Hne.
    + destruct (k0 =? k); [reflexivity | exact IH].
Qed.

(** A spread leaves alone the keys that its source does not have. *)
Lemma lookup_spread_absent (k : string) :
  forall src target,
    JS.lookup k src = None ->
    JS.lookup k (fold_left (fun acc p => JS.set (fst p) (snd p) acc) src target)
    = JS.lookup k target.
Proof.
  induction src as [|[k' v'] src IH]; intros target H; simpl in *.
  - reflexivity.
  - destruct (k' =? k) eqn:E; [discriminate|].
    rewrite IH by exact H. apply lookup_set_other.
    now apply String.eqb_neq.
Qed.

(** A rest pattern does not bind the keys that the pattern names. *)
Lemma lookup_rest_named (k : string) (ks : list string) :
  JS.mem k ks = true ->
  forall ps,
    JS.lookup k (filter (fun p => negb (JS.mem (fst p) ks)) ps) = None.
Proof.
  intros Hk. induction ps as [|[k' v'] ps IH]; simpl.
  - reflexivity.
  - destruct (JS.mem k' ks) eqn:E; simpl; [exact IH|].
    destruct (k' =? k) eqn:E'; [|exact IH].
    apply String.eqb_eq in E'. congruence.
Qed.

Lemma lookup_rest_other (k : string) (ks : list string) :
  JS.mem k ks = false ->
  forall ps,
    JS.lookup k (filter (fun p => negb (JS.mem (fst p) ks)) ps) = JS.lookup k ps.
Proof.
  intros Hk. induction ps as [|[k' v'] ps IH]; simpl.
  - reflexivity.
  - destruct (JS.mem k' ks) eqn:E; simpl.
    + destruct (k' =? k) eqn:E'; [|exact IH].
      apply String.eqb_eq in E'. congruence.
    + destruct (k' =? k); [reflexivity | exact IH].
Qed.

(** ** Loops *)

Lemma world_eta (w : world) : mkWorld (requests w) (created w) = w.
Proof. now destruct w. Qed.

Lemma bind_throw {A B : Type} (m : M A) (k : A -> M B) (w w' : world) (e : exn) :
  m w = (Throw e, w') -> bind m k w = (Throw e, w').
Proof. unfold bind. now intros ->. Qed.

Lemma forEach_collect (b : value -> M unit) (g : value -> result (list value)) :
  pure_body b g ->
  forall xs w,
    forEach b xs w =
    (snd (collect g xs),
     mkWorld (requests w) (created w ++ fst (collect g xs))).
Proof.
  intros Hb. induction xs as [|x xs IH]; intros w; simpl.
  - unfold ret. now rewrite app_nil_r, world_eta.
  - unfold bind. rewrite Hb. destruct (g x) as [ns|e]; simpl.
    + rewrite IH. destruct (collect g xs) as [ms r]. simpl.
      now rewrite app_assoc.
    + now rewrite app_nil_r, world_eta.
Qed.

Lemma emit_pure (f : value -> result value) : pure_body (emit f) (one f).
Proof.
  intros x w. unfold emit, one, bind, lift, createNode, rbind.
  now destruct (f x).
Qed.

Lemma plugin_body_pure (cid : string -> string) (dig : value -> string) :
  pure_body (plugin_body cid dig) (opt (plugin_node cid dig)).
Proof.
  intros x w. unfold plugin_body, opt, bind, lift, createNode, rbind, ret.
  destruct (plugin_node cid dig x) as [[n|]|e]; try reflexivity.
  now rewrite app_nil_r, world_eta.
Qed.

Lemma collect_one_ok (f : value -> result value) :
  forall xs ns,
    Forall2 (fun x n => f x = Ok n) xs ns ->
    collect (one f) xs = (ns, Ok tt).
Proof.
  induction 1 as [|x n xs ns Hx _ IH]; simpl.
  - reflexivity.
  - unfold one at 1. rewrite Hx. simpl. now rewrite IH.
Qed.

(** ** The feeds *)

Section Feeds.

Variable createNodeId : string -> string.
Variable createContentDigest : value -> string.
Variable network : request -> response.

(** A feed logs its request, then loops over the array it received. *)
Lemma array_feed_spec (url : string) (b : value -> M unit)
      (g : value -> result (list value)) :
  pure_body b g ->
  forall w,
    (v <- fetch_json network url [] ;; forEach_of v b) w =
    (snd (feed_result (network (feed_request url)) g),
     mkWorld (requests w ++ [feed_request url])
             (created w ++ fst (feed_result (network (feed_request url)) g))).
Proof.
  intros Hb w. unfold bind, fetch_json, feed_request, feed_result.
  destruct (network _) as [| |v]; simpl; try now rewrite app_nil_r.
  destruct v; simpl; unfold lift; try now rewrite app_nil_r.
  now rewrite (forEach_collect b g Hb).
Qed.

Lemma failed_fetch_result (resp : response) (g : value -> result (list value)) :
  fetch_fails resp = true ->
  exists e, feed_result resp g = ([], Throw e).
Proof.
  destruct resp as [| |v]; simpl; eauto.
  destruct v; simpl; eauto. discriminate.
Qed.

Lemma issues_feed_spec (w : world) :
  issues_feed createNodeId createContentDigest network w =
  (snd (feed_result (network (feed_request issues_url))
          (one (issue_node createNodeId createContentDigest))),
   mkWorld (requests w ++ [feed_request issues_url])
           (created w ++
            fst (feed_result (network (feed_request issues_url))
                   (one (issue_node createNodeId createContentDigest))))).
Proof. apply array_feed_spec, emit_pure. Qed.

Lemma pulls_feed_spec (w : world) :
  pulls_feed createNodeId createContentDigest network w =
  (snd (feed_result (network (feed_request pulls_url))
          (one (pull_node createNodeId createContentDigest))),
   mkWorld (requests w ++ [feed_request pulls_url])
           (created w ++
            fst (feed_result (network (feed_request pulls_url))
                   (one (pull_node createNodeId createContentDigest))))).
Proof. apply array_feed_spec, emit_pure. Qed.

Lemma integrations_feed_spec (w : world) :
  integrations_feed createNodeId createContentDigest network w =
  (snd (feed_result (network (feed_request integrations_url))
          (one (integration_node createNodeId createContentDigest))),
   mkWorld (requests w ++ [feed_request integrations_url])
           (created w ++
            fst (feed_result (network (feed_request integrations_url))
                   (one (integration_node createNodeId createContentDigest))))).
Proof. apply array_feed_spec, emit_pure. Qed.

Lemma plugins_feed_spec (w : world) :
  plugins_feed createNodeId createContentDigest network w =
  (snd (feed_result (network (feed_request plugins_url))
          (opt (plugin_node createNodeId createContentDigest))),
   mkWorld (requests w ++ [feed_request plugins_url])
           (created w ++
            fst (feed_result (network (feed_request plugins_url))
                   (opt (plugin_node createNodeId createContentDigest))))).
Proof. apply array_feed_spec, plugin_body_pure. Qed.

End Feeds.

(** ** Single records *)

Section Records.

Variable createNodeId : string -> string.
Variable createContentDigest : value -> string.

Lemma nullish_author (user : value) :
  JS.nullish user = true -> author_of user = undefined_author.
Proof. destruct user; try discriminate; reflexivity. Qed.

(** The issue body goes through as soon as the record is not null and its
    title converts to a string; the node is then the literal of lines
    65-74. *)
Lemma issue_node_ok (record : value) (t : string) :
  JS.nullish record = false ->
  JS.to_string (JS.get "title" record) = Ok t ->
  issue_node createNodeId createContentDigest record =
  Ok (VObj [("id", VStr (createNodeId ("posthog-issue-" ++ t)));
            ("parent", VNull);
            ("children", VArr []);
            ("internal",
             internal_of "PostHogIssue"
               (createContentDigest
                  (issue_data (JS.get "html_url" record) (JS.get "title" record)
                     (JS.get "number" record) (JS.get "comments" record)
                     (JS.get "user" record))));
            ("url", JS.get "html_url" record);
            ("title", JS.get "title" record);
            ("number", JS.get "number" record);
            ("comments", JS.get "comments" record);
            ("user", author_of (JS.get "user" record))]).
Proof.
  intros Hr Ht. unfold issue_node, JS.prop. rewrite Hr. simpl.
  rewrite Ht. reflexivity.
Qed.

Lemma pull_node_ok (record : value) (t : string) :
  JS.nullish record = false ->
  JS.to_string (JS.get "title" record) = Ok t ->
  pull_node createNodeId createContentDigest record =
  Ok (VObj [("id", VStr (createNodeId ("posthog-pull-" ++ t)));
            ("parent", VNull);
            ("children", VArr []);
            ("internal",
             internal_of "PostHogPull"
               (createContentDigest
                  (pull_data (JS.get "html_url" record) (JS.get "title" record)
                     (JS.get "number" record) (JS.get "user" record))));
            ("url", JS.get "html_url" record);
            ("title", JS.get "title" record);
            ("number", JS.get "number" record);
            ("user", author_of (JS.get "user" record))]).
Proof.
  intros Hr Ht. unfold pull_node, JS.prop. rewrite Hr. simpl.
  rewrite Ht. reflexivity.
Qed.

Lemma emit_ok (f : value -> result value) (record n : value) (w : world) :
  f record = Ok n ->
  emit f record w = (Ok tt, mkWorld (requests w) (created w ++ [n])).
Proof. intros H. rewrite (emit_pure f). unfold one. now rewrite H. Qed.

(** C8: the issue record of the specification's example yields exactly one
    node, and its fields are url, title, number, comments and the author
    descriptor with the values the example lists. *)
Theorem example_issue_yields_expected_node (w : world) :
  normalize_issues createNodeId createContentDigest
    (VArr [Sample.example_issue]) w =
  (Ok tt,
   mkWorld (requests w)
     (created w ++
      [VObj ([("id", VStr (createNodeId "posthog-issue-Bug"));
              ("parent", VNull);
              ("children", VArr []);
              ("internal",
               internal_of "PostHogIssue"
                 (createContentDigest (VObj example_issue_fields)))]
             ++ example_issue_fields)]))
  /\ (exists n,
        issue_node createNodeId createContentDigest Sample.example_issue = Ok n
        /\ node_fields n = VObj example_issue_fields).
Proof.
  split.
  - reflexivity.
  - eexists. split.
    + apply (issue_node_ok _ "Bug"); reflexivity.
    + reflexivity.
Qed.

(** C10: an issue or pull-request record whose user is absent or null still
    yields its node, without an exception, and the author descriptor of the
    node has username, avatar and url all undefined.  The record is any
    value but null and undefined, with a title that converts to a string. *)
Theorem missing_user_yields_undefined_author (record : value) (t : string) :
  JS.nullish record = false ->
  JS.nullish (JS.get "user" record) = true ->
  JS.to_string (JS.get "title" record) = Ok t ->
  (exists n,
      issue_node createNodeId createContentDigest record = Ok n
      /\ JS.get "user" n = undefined_author
      /\ forall w,
          emit (issue_node createNodeId createContentDigest) record w =
          (Ok tt, mkWorld (requests w) (created w ++ [n])))
  /\
  (exists n,
      pull_node createNodeId createContentDigest record = Ok n
      /\ JS.get "user" n = undefined_author
      /\ forall w,
          emit (pull_node createNodeId createContentDigest) record w =
          (Ok tt, mkWorld (requests w) (created w ++ [n]))).
Proof.
  intros Hr Hu Ht. split.
  - eexists. split; [apply (issue_node_ok _ t Hr Ht)|]. split.
    + simpl. now apply nullish_author.
    + intros w. apply emit_ok, (issue_node_ok _ t Hr Ht).
  - eexists. split; [apply (pull_node_ok _ t Hr Ht)|]. split.
    + simpl. now apply nullish_author.
    + intros w. apply emit_ok, (pull_node_ok _ t Hr Ht).
Qed.

(** The plugin body on a record that is not null: nothing when the flag
    is falsy, the literal of lines 132-142 when it is truthy. *)
Lemma plugin_node_hidden (plugin : value) :
  JS.nullish plugin = false ->
  displayed plugin = false ->
  plugin_node createNodeId createContentDigest plugin = Ok None.
Proof.
  intros Hp Hd. unfold plugin_node, JS.prop. rewrite Hp. simpl.
  unfold displayed in Hd. now rewrite Hd.
Qed.

Lemma plugin_node_shown (plugin : value) (t : string) :
  JS.nullish plugin = false ->
  displayed plugin = true ->
  JS.to_string (JS.get "name" plugin) = Ok t ->
  plugin_node createNodeId createContentDigest plugin =
  Ok (Some (VObj (JS.spread
                    [("id", VStr (createNodeId ("plugin-" ++ t)));
                     ("parent", VNull);
                     ("children", VArr []);
                     ("internal", internal_of "Plugin" (createContentDigest plugin));
                     ("name", JS.get "name" plugin)]
                    (JS.rest ["displayOnWebsiteLib"; "name"] plugin)))).
Proof.
  intros Hp Hd Ht. unfold plugin_node, JS.prop. rewrite Hp. simpl.
  unfold displayed in Hd. rewrite Hd, Ht. reflexivity.
Qed.

Lemma flag_not_nullish (plugin : value) (b : bool) :
  JS.get "displayOnWebsiteLib" plugin = VBool b -> JS.nullish plugin = false.
Proof. destruct plugin; simpl; intros H; try reflexivity; discriminate. Qed.

(** C7: a plugin record whose displayOnWebsiteLib is false yields no node;
    one whose flag is true yields exactly one node (its name converting to
    a string, as every string, number, boolean, null or missing name
    does). *)
Theorem plugin_visibility_filter (plugin : value) :
  (JS.get "displayOnWebsiteLib" plugin = VBool false ->
   forall w, plugin_body createNodeId createContentDigest plugin w = (Ok tt, w))
  /\
  (JS.get "displayOnWebsiteLib" plugin = VBool true ->
   forall t, JS.to_string (JS.get "name" plugin) = Ok t ->
   exists n,
     forall w,
       plugin_body createNodeId createContentDigest plugin w =
       (Ok tt, mkWorld (requests w) (created w ++ [n]))).
Proof.
  split.
  - intros Hf w. rewrite (plugin_body_pure createNodeId createContentDigest).
    unfold opt. rewrite plugin_node_hidden.
    + simpl. now rewrite app_nil_r, world_eta.
    + exact (flag_not_nullish _ _ Hf).
    + unfold displayed. now rewrite Hf.
  - intros Hf t Ht. eexists. intros w.
    rewrite (plugin_body_pure createNodeId createContentDigest).
    unfold opt. rewrite (plugin_node_shown _ t).
    + reflexivity.
    + exact (flag_not_nullish _ _ Hf).
    + unfold displayed. now rewrite Hf.
    + exact Ht.
Qed.

End Records.

Lemma missing_user_witness :
  exists n,
    issue_node Sample.createNodeId Sample.createContentDigest Sample.second_bug = Ok n
    /\ JS.get "user" n = undefined_author.
Proof.
  destruct (missing_user_yields_undefined_author
              Sample.createNodeId Sample.createContentDigest
              Sample.second_bug "Bug" eq_refl eq_refl eq_refl)
    as [(n & Hn & Hu & _) _].
  exists n. split; assumption.
Defined.

Lemma plugin_visibility_witness :
  (forall w,
      plugin_body Sample.createNodeId Sample.createContentDigest
        Sample.hidden_plugin w = (Ok tt, w))
  /\
  (exists n, forall w,
        plugin_body Sample.createNodeId Sample.createContentDigest
          Sample.shown_plugin w =
        (Ok tt, mkWorld (requests w) (created w ++ [n]))).
Proof.
  split.
  - exact (proj1 (plugin_visibility_filter
                    Sample.createNodeId Sample.createContentDigest
                    Sample.hidden_plugin) eq_refl).
  - exact (proj2 (plugin_visibility_filter
                    Sample.createNodeId Sample.createContentDigest
                    Sample.shown_plugin) eq_refl "GeoIP" eq_refl).
Defined.

(** ** The whole pass *)

Lemma in_firstn {A : Type} (x : A) :
  forall k l, In x (firstn k l) -> In x l.
Proof.
  induction k as [|k IH]; intros [|y l] H; simpl in *; try contradiction.
  destruct H as [H|H]; [now left | right; now apply IH].
Qed.

Lemma bind_assoc {A B C : Type} (m : M A) (f : A -> M B) (g : B -> M C) (w : world) :
  bind (bind m f) g w = bind m (fun x => bind (f x) g) w.
Proof. unfold bind. destruct (m w) as [[a|e] w']; reflexivity. Qed.

Section Pass.

Variable createNodeId : string -> string.
Variable createContentDigest : value -> string.
Variable network : request -> response.
Variable buildStructure : value -> value -> result (list value).
Variable JSON_stringify : value -> value.

Let issues := issues_feed createNodeId createContentDigest network.
Let pulls := pulls_feed createNodeId createContentDigest network.
Let integrations := integrations_feed createNodeId createContentDigest network.
Let plugins := plugins_feed createNodeId createContentDigest network.

(** The four feeds that need no key issue their requests in the order of
    the source, and stop at the first feed that throws. *)
Lemma keyless_feeds_requests (w : world) :
  exists k,
    requests (snd ((issues ;; pulls ;; integrations ;; plugins) w)) =
    (requests w ++ firstn k [feed_request issues_url; feed_request pulls_url;
                             feed_request integrations_url;
                             feed_request plugins_url])%list.
Proof.
  unfold bind, issues, pulls, integrations, plugins.
  rewrite issues_feed_spec.
  destruct (feed_result _ _) as [ns1 [[]|e1]]; simpl; [|now exists 1%nat].
  rewrite pulls_feed_spec.
  destruct (feed_result _ _) as [ns2 [[]|e2]]; simpl;
    [|exists 2%nat; now rewrite <- app_assoc].
  rewrite integrations_feed_spec.
  destruct (feed_result _ _) as [ns3 [[]|e3]]; simpl;
    [|exists 3%nat; now rewrite <- !app_assoc].
  rewrite plugins_feed_spec. simpl.
  exists 4%nat. now rewrite <- !app_assoc.
Qed.

(** C6: without the API key the schema feed is skipped: it issues no
    request, creates no node and ends normally, so that the pass is the
    four other feeds, none of whose requests goes to the schema endpoint. *)
Theorem schema_feed_skipped_without_key (w : world) :
  schema_feed createNodeId createContentDigest None network
    buildStructure JSON_stringify w = (Ok tt, w)
  /\ sourceNodes createNodeId createContentDigest None network
       buildStructure JSON_stringify w =
     (issues ;; pulls ;; integrations ;; plugins) w
  /\ forall r,
      In r (requests (snd (sourceNodes createNodeId createContentDigest None
                             network buildStructure JSON_stringify w))) ->
      In r (requests w) \/ req_url r <> schema_url.
Proof.
  split; [reflexivity|]. split; [reflexivity|].
  intros r Hr.
  change (sourceNodes createNodeId createContentDigest None network
            buildStructure JSON_stringify w)
    with ((issues ;; pulls ;; integrations ;; plugins) w) in Hr.
  destruct (keyless_feeds_requests w) as [k Hk]. rewrite Hk in Hr.
  apply in_app_or in Hr. destruct Hr as [Hr|Hr]; [now left|right].
  apply in_firstn in Hr. simpl in Hr.
  destruct Hr as [<-|[<-|[<-|[<-|[]]]]]; discriminate.
Qed.

(** An empty key is falsy, and skips the feed in the same way. *)
Lemma schema_feed_skipped_with_empty_key (w : world) :
  schema_feed createNodeId createContentDigest (Some "") network
    buildStructure JSON_stringify w = (Ok tt, w).
Proof. reflexivity. Qed.

End Pass.

Lemma schema_skip_witness :
  In (feed_request issues_url) (requests empty_world)
  \/ req_url (feed_request issues_url) <> schema_url.
Proof.
  apply (proj2 (proj2 (schema_feed_skipped_without_key
                         Sample.createNodeId Sample.createContentDigest
                         Sample.network_ok Sample.buildStructure
                         Sample.JSON_stringify empty_world))).
  vm_compute. now left.
Defined.

(** ** A feed that fails *)

Lemma seq_ok (a k : M unit) (w w1 : world) :
  a w = (Ok tt, w1) -> (a ;; k) w = k w1.
Proof. unfold bind. now intros ->. Qed.

Lemma seq_assoc (a b k : M unit) (w : world) :
  (a ;; b ;; k) w = ((a ;; b) ;; k) w.
Proof. symmetry. apply bind_assoc. Qed.

Section Failure.

Variable createNodeId : string -> string.
Variable createContentDigest : value -> string.
Variable POSTHOG_APP_API_KEY : option string.
Variable network : request -> response.
Variable buildStructure : value -> value -> result (list value).
Variable JSON_stringify : value -> value.

Let schema :=
  schema_feed createNodeId createContentDigest POSTHOG_APP_API_KEY network
    buildStructure JSON_stringify.
Let issues := issues_feed createNodeId createContentDigest network.
Let pulls := pulls_feed createNodeId createContentDigest network.
Let integrations := integrations_feed createNodeId createContentDigest network.
Let plugins := plugins_feed createNodeId createContentDigest network.
Let pass :=
  sourceNodes createNodeId createContentDigest POSTHOG_APP_API_KEY network
    buildStructure JSON_stringify.

(** A feed whose fetch fails throws after its request, with no node. *)
Lemma failed_feed_throws (url : string) (b : value -> M unit)
      (g : value -> result (list value)) (w : world) :
  pure_body b g ->
  fetch_fails (network (feed_request url)) = true ->
  exists e,
    (v <- fetch_json network url [] ;; forEach_of v b) w =
    (Throw e, mkWorld (requests w ++ [feed_request url]) (created w)).
Proof.
  intros Hb Hf. rewrite (array_feed_spec network url b g Hb).
  destruct (failed_fetch_result _ g Hf) as [e ->]. exists e. simpl.
  now rewrite app_nil_r.
Qed.

Lemma throw_seq (a k : M unit) (w w' : world) :
  (exists e, a w = (Throw e, w')) -> exists e, (a ;; k) w = (Throw e, w').
Proof. intros [e H]. exists e. now apply bind_throw. Qed.

(** C2: when the fetch of a feed fails (the request fails, the body is not
    JSON, or the JSON is not an array), the pass ends there with an
    exception: the failing feed has created no node, the nodes of the feeds
    before it stay created, and the feeds after it are not run, so they
    issue no request and create no node. *)
Theorem failed_feed_stops_the_pass (w w1 : world) :
  (forall key,
      POSTHOG_APP_API_KEY = Some key -> key <> "" ->
      no_body (network (schema_request key)) = true ->
      exists e,
        pass w = (Throw e, mkWorld (requests w ++ [schema_request key])
                                   (created w)))
  /\
  (schema w = (Ok tt, w1) ->
   fetch_fails (network (feed_request issues_url)) = true ->
   exists e,
     pass w = (Throw e, mkWorld (requests w1 ++ [feed_request issues_url])
                                (created w1)))
  /\
  ((schema ;; issues) w = (Ok tt, w1) ->
   fetch_fails (network (feed_request pulls_url)) = true ->
   exists e,
     pass w = (Throw e, mkWorld (requests w1 ++ [feed_request pulls_url])
                                (created w1)))
  /\
  ((schema ;; issues ;; pulls) w = (Ok tt, w1) ->
   fetch_fails (network (feed_request integrations_url)) = true ->
   exists e,
     pass w = (Throw e, mkWorld (requests w1 ++ [feed_request integrations_url])
                                (created w1)))
  /\
  ((schema ;; issues ;; pulls ;; integrations) w = (Ok tt, w1) ->
   fetch_fails (network (feed_request plugins_url)) = true ->
   exists e,
     pass w = (Throw e, mkWorld (requests w1 ++ [feed_request plugins_url])
                                (created w1))).
Proof.
  assert (Hpass : pass w = (schema ;; issues ;; pulls ;; integrations ;; plugins) w)
    by reflexivity.
  split.
  { intros key Hkey Hne Hf. rewrite Hpass. apply throw_seq.
    unfold schema, schema_feed. rewrite Hkey.
    apply String.eqb_neq in Hne. rewrite Hne.
    unfold schema_feed_with, bind, fetch_json. fold (schema_request key).
    destruct (network (schema_request key)); [eauto | eauto | discriminate]. }
  repeat split; intros Hok Hf; rewrite Hpass.
  - rewrite (seq_ok _ _ _ _ Hok).
    apply throw_seq, (failed_feed_throws _ _ _ _ (emit_pure _) Hf).
  - rewrite seq_assoc, (seq_ok _ _ _ _ Hok).
    apply throw_seq, (failed_feed_throws _ _ _ _ (emit_pure _) Hf).
  - rewrite seq_assoc in Hok.
    rewrite seq_assoc, seq_assoc, (seq_ok _ _ _ _ Hok).
    apply throw_seq, (failed_feed_throws _ _ _ _ (emit_pure _) Hf).
  - rewrite seq_assoc, seq_assoc in Hok.
    rewrite seq_assoc, seq_assoc, seq_assoc, (seq_ok _ _ _ _ Hok).
    apply (failed_feed_throws _ _ _ _ (plugin_body_pure _ _) Hf).
Qed.

End Failure.

Lemma failed_feed_witness :
  exists e,
    Sample.run None Sample.network_issues_down =
    (Throw e, mkWorld [feed_request issues_url] []).
Proof.
  exact (proj1 (proj2 (failed_feed_stops_the_pass
                         Sample.createNodeId Sample.createContentDigest None
                         Sample.network_issues_down Sample.buildStructure
                         Sample.JSON_stringify empty_world empty_world))
               eq_refl eq_refl).
Defined.

(** C2, as stated, fails: with the issue feed down, the pull-request feed
    creates nothing, although it would create a node had the issue feed
    answered. *)
Lemma failed_feed_silences_later_feeds :
  fetch_fails (Sample.network_issues_down (feed_request issues_url)) = true
  /\ Sample.network_issues_down (feed_request pulls_url) =
     Sample.network_ok (feed_request pulls_url)
  /\ nodes_of_type "PostHogPull"
       (created (snd (Sample.run None Sample.network_issues_down))) = []
  /\ nodes_of_type "PostHogPull"
       (created (snd (Sample.run None Sample.network_issues_down)))
     <> nodes_of_type "PostHogPull"
          (created (snd (Sample.run None Sample.network_ok))).
Proof.
  repeat split; try reflexivity. discriminate.
Qed.

(** ** Records with and without their natural key *)

Lemma key_converts (k : string) (record : value) :
  key_absent_or_string k record = true ->
  exists t, JS.to_string (JS.get k record) = Ok t.
Proof.
  unfold key_absent_or_string.
  destruct (JS.get k record); try discriminate; simpl; eauto.
Qed.

Lemma object_not_nullish (record : value) :
  is_object record = true -> JS.nullish record = false.
Proof. destruct record; try discriminate; reflexivity. Qed.

Lemma missing_key_undefined (k : string) (record : value) :
  JS.has_key k record = false -> JS.get k record = VUndefined.
Proof.
  destruct record; simpl; try reflexivity.
  destruct (JS.lookup k props); [discriminate | reflexivity].
Qed.

Lemma loop_total (f : value -> result value) (ok : value -> bool) :
  (forall r, ok r = true -> exists n, f r = Ok n) ->
  forall records,
    forallb ok records = true ->
    exists ns, Forall2 (fun r n => f r = Ok n) records ns.
Proof.
  intros Hf. induction records as [|r records IH]; simpl; intros H.
  - exists []. constructor.
  - apply andb_true_iff in H. destruct H as [Hr Hrs].
    destruct (Hf r Hr) as [n Hn]. destruct (IH Hrs) as [ns Hns].
    exists (n :: ns). now constructor.
Qed.

Lemma loop_creates_all (f : value -> result value) (records ns : list value) (w : world) :
  Forall2 (fun r n => f r = Ok n) records ns ->
  forEach_of (VArr records) (emit f) w =
  (Ok tt, mkWorld (requests w) (created w ++ ns)).
Proof.
  intros H. simpl. rewrite (forEach_collect _ _ (emit_pure f)).
  now rewrite (collect_one_ok f records ns H).
Qed.

Section Keys.

Variable createNodeId : string -> string.
Variable createContentDigest : value -> string.

Lemma integration_node_ok (record : value) (t u : string) :
  JS.nullish record = false ->
  JS.get "url" record = VStr u ->
  JS.to_string (JS.get "name" record) = Ok t ->
  integration_node createNodeId createContentDigest record =
  Ok (VObj (JS.spread
              [("id", VStr (createNodeId ("integration-" ++ t)));
               ("parent", VNull);
               ("children", VArr []);
               ("internal", internal_of "Integration" (createContentDigest record));
               ("url", VStr (rewrite_url u));
               ("name", JS.get "name" record)]
              (JS.rest ["name"; "url"] record))).
Proof.
  intros Hr Hu Ht. unfold integration_node, JS.prop. rewrite Hr.
  cbn [rbind]. rewrite Ht, Hu. reflexivity.
Qed.

Lemma issue_record_total (record : value) :
  issue_record_ok record = true ->
  exists n, issue_node createNodeId createContentDigest record = Ok n.
Proof.
  unfold issue_record_ok. intros H. apply andb_true_iff in H. destruct H as [Ho Hk].
  destruct (key_converts _ _ Hk) as [t Ht].
  eexists. apply (issue_node_ok _ _ _ t (object_not_nullish _ Ho) Ht).
Qed.

Lemma pull_record_total (record : value) :
  issue_record_ok record = true ->
  exists n, pull_node createNodeId createContentDigest record = Ok n.
Proof.
  unfold issue_record_ok. intros H. apply andb_true_iff in H. destruct H as [Ho Hk].
  destruct (key_converts _ _ Hk) as [t Ht].
  eexists. apply (pull_node_ok _ _ _ t (object_not_nullish _ Ho) Ht).
Qed.

Lemma integration_record_total (record : value) :
  integration_record_ok record = true ->
  exists n, integration_node createNodeId createContentDigest record = Ok n.
Proof.
  unfold integration_record_ok. intros H.
  apply andb_true_iff in H. destruct H as [H Hu].
  apply andb_true_iff in H. destruct H as [Ho Hk].
  destruct (key_converts _ _ Hk) as [t Ht].
  destruct (JS.get "url" record) as [| | | |u| |] eqn:Eu; try discriminate.
  eexists. apply (integration_node_ok _ t u (object_not_nullish _ Ho) Eu Ht).
Qed.

Lemma plugins_collect :
  forall records,
    forallb plugin_record_ok records = true ->
    exists ns,
      collect (opt (plugin_node createNodeId createContentDigest)) records
      = (ns, Ok tt)
      /\ length ns = length (filter displayed records).
Proof.
  induction records as [|r records IH]; simpl; intros H.
  - exists []. split; reflexivity.
  - apply andb_true_iff in H. destruct H as [Hr Hrs].
    destruct (IH Hrs) as (ns & Hns & Hlen).
    unfold plugin_record_ok in Hr. apply andb_true_iff in Hr.
    destruct Hr as [Ho Hk]. apply object_not_nullish in Ho.
    destruct (key_converts _ _ Hk) as [t Ht].
    unfold opt at 1. destruct (displayed r) eqn:Ed.
    + rewrite (plugin_node_shown _ _ _ t Ho Ed Ht). simpl. rewrite Hns.
      eexists. split; [reflexivity|]. simpl. now rewrite Hlen.
    + rewrite (plugin_node_hidden _ _ _ Ho Ed). simpl. rewrite Hns.
      exists ns. split; [reflexivity | exact Hlen].
Qed.

(** C1: the normalizer does not look for the natural key.  Over a payload
    of objects whose title (issues, pull requests) or name (integrations,
    plugins) is a string or is missing, the loop ends normally and creates
    exactly one node for every issue, pull request and integration (whose
    url is a string), and one for every plugin whose display flag is
    truthy; a record without a title gets the identifier seeded with
    "undefined". *)
Theorem every_record_yields_its_node (records : list value) (w : world) :
  (forallb issue_record_ok records = true ->
   exists ns,
     normalize_issues createNodeId createContentDigest (VArr records) w =
     (Ok tt, mkWorld (requests w) (created w ++ ns))
     /\ length ns = length records)
  /\
  (forallb issue_record_ok records = true ->
   exists ns,
     normalize_pulls createNodeId createContentDigest (VArr records) w =
     (Ok tt, mkWorld (requests w) (created w ++ ns))
     /\ length ns = length records)
  /\
  (forallb integration_record_ok records = true ->
   exists ns,
     normalize_integrations createNodeId createContentDigest (VArr records) w =
     (Ok tt, mkWorld (requests w) (created w ++ ns))
     /\ length ns = length records)
  /\
  (forallb plugin_record_ok records = true ->
   exists ns,
     normalize_plugins createNodeId createContentDigest (VArr records) w =
     (Ok tt, mkWorld (requests w) (created w ++ ns))
     /\ length ns = length (filter displayed records))
  /\
  (forall record,
      is_object record = true ->
      JS.has_key "title" record = false ->
      exists n,
        issue_node createNodeId createContentDigest record = Ok n
        /\ node_id n = VStr (createNodeId "posthog-issue-undefined")).
Proof.
  split; [|split; [|split; [|split]]].
  - intros H.
    destruct (loop_total _ _ issue_record_total records H) as [ns Hns].
    exists ns. split; [now apply loop_creates_all|].
    symmetry. exact (Forall2_length Hns).
  - intros H.
    destruct (loop_total _ _ pull_record_total records H) as [ns Hns].
    exists ns. split; [now apply loop_creates_all|].
    symmetry. exact (Forall2_length Hns).
  - intros H.
    destruct (loop_total _ _ integration_record_total records H) as [ns Hns].
    exists ns. split; [now apply loop_creates_all|].
    symmetry. exact (Forall2_length Hns).
  - intros H. destruct (plugins_collect records H) as (ns & Hns & Hlen).
    exists ns. split; [|exact Hlen].
    unfold normalize_plugins. simpl.
    rewrite (forEach_collect _ _ (plugin_body_pure _ _)). now rewrite Hns.
  - intros record Ho Hk. apply missing_key_undefined in Hk.
    eexists. split.
    + apply (issue_node_ok _ _ _ "undefined" (object_not_nullish _ Ho)).
      now rewrite Hk.
    + reflexivity.
Qed.

End Keys.

Lemma every_record_witness :
  exists ns,
    normalize_issues Sample.createNodeId Sample.createContentDigest
      (VArr [Sample.example_issue; Sample.untitled_issue]) empty_world =
    (Ok tt, mkWorld [] ns)
    /\ length ns = 2%nat.
Proof.
  exact (proj1 (every_record_yields_its_node
                  Sample.createNodeId Sample.createContentDigest
                  [Sample.example_issue; Sample.untitled_issue] empty_world)
               eq_refl).
Defined.

(** C1, as stated, fails: an issue record without a title is not excluded,
    the loop creates a node for it. *)
Lemma untitled_issue_yields_a_node :
  JS.has_key "title" Sample.untitled_issue = false
  /\ created (snd (normalize_issues Sample.createNodeId Sample.createContentDigest
                     (VArr [Sample.untitled_issue]) empty_world)) <> [].
Proof. split; [reflexivity | discriminate]. Qed.

(** ** Identifiers *)

Lemma append_cancel_l (p a b : string) : p ++ a = p ++ b -> a = b.
Proof.
  induction p as [|c p IH]; simpl; intros H.
  - exact H.
  - injection H as H. now apply IH.
Qed.

(** A spread of a rest object leaves alone the keys that the record does
    not have. *)
Lemma spread_rest_keeps (k : string) (ks : list string)
      (target ps : list (string * value)) :
  JS.mem k ks = false ->
  JS.lookup k ps = None ->
  JS.get k (VObj (JS.spread target (JS.rest ks (VObj ps)))) = JS.get k (VObj target).
Proof.
  intros Hk Hps. unfold JS.spread, JS.rest, JS.own_props. simpl.
  rewrite lookup_spread_absent; [reflexivity|].
  now rewrite lookup_rest_other.
Qed.

(** The same for the keys that the rest pattern names. *)
Lemma spread_rest_named (k : string) (ks : list string)
      (target ps : list (string * value)) :
  JS.mem k ks = true ->
  JS.get k (VObj (JS.spread target (JS.rest ks (VObj ps)))) = JS.get k (VObj target).
Proof.
  intros Hk. unfold JS.spread, JS.rest, JS.own_props. simpl.
  rewrite lookup_spread_absent; [reflexivity|].
  now apply lookup_rest_named.
Qed.


Section Identifiers.

Variable createNodeId : string -> string.
Variable createContentDigest : value -> string.




Hypothesis createNodeId_injective :
  forall a b, createNodeId a = createNodeId b -> a = b.






End Identifiers.


(** A numeric title of 1e21 and the title "1e+21" print the same, and so
    seed the same identifier. *)
Lemma large_number_title_prints_in_exponent_form :
  JS.to_string (VNum 1000000000000000000000) = Ok "1e+21"
  /\ JS.to_string (VStr "1e+21") = Ok "1e+21"
  /\ JS.to_string (VNum 18446744073709551616) = Ok "18446744073709552000".
Proof. repeat split; vm_compute; reflexivity. Qed.


(** ** The URL rewrite *)

Lemma append_assoc_s (a b c : string) : (a ++ b) ++ c = a ++ (b ++ c).
Proof. induction a as [|x a IH]; simpl; [reflexivity | now rewrite IH]. Qed.

Lemma length_append_s (a b : string) :
  String.length (a ++ b) = (String.length a + String.length b)%nat.
Proof. induction a as [|x a IH]; simpl; [reflexivity | now rewrite IH]. Qed.

(** Text appended after the first [length p] characters does not make [p]
    a prefix. *)
Lemma strip_prefix_none_app (p : string) :
  forall a b,
    (String.length p <= String.length a)%nat ->
    JS.strip_prefix p a = None ->
    JS.strip_prefix p (a ++ b) = None.
Proof.
  induction p as [|x p IH]; intros a b Hlen H; simpl in *.
  - discriminate.
  - destruct a as [|y a]; simpl in *; [lia|].
    destruct (Ascii.eqb x y); [|reflexivity].
    apply IH; [lia | exact H].
Qed.

(** [replace_first] rewrites the leftmost occurrence: the one before which
    no occurrence starts. *)
Lemma replace_first_leftmost (q : string) (c : ascii) (rep post : string) :
  forall pre,
    JS.occurs (q ++ String c "") (pre ++ q) = false ->
    JS.replace_first (q ++ String c "") rep (pre ++ (q ++ String c "") ++ post)
    = pre ++ rep ++ post.
Proof.
  induction pre as [|x pre IH]; intros H.
  - simpl. apply replace_first_prefix.
  - rewrite occurs_unfold in H.
    destruct (JS.strip_prefix (q ++ String c "") (String x pre ++ q)) eqn:E;
      [discriminate|].
    rewrite replace_first_unfold.
    replace (String x pre ++ (q ++ String c "") ++ post)
      with ((String x pre ++ q) ++ (String c "" ++ post))
      by (now rewrite !append_assoc_s).
    rewrite strip_prefix_none_app; [| |exact E].
    + rewrite append_assoc_s. simpl. f_equal.
      rewrite <- (IH H). now rewrite !append_assoc_s.
    + rewrite !length_append_s. simpl. lia.
Qed.

Lemma rewrite_url_relative (url : string) :
  JS.occurs site_domain url = false -> rewrite_url url = url.
Proof. apply replace_first_absent. Qed.

Section Rewrite.

Variable createNodeId : string -> string.
Variable createContentDigest : value -> string.

(** C3: the rewrite removes the leftmost occurrence of the domain, spelt
    exactly "https://posthog.com" (letter case included), and nothing else:
    a URL that begins with it loses exactly that prefix, later occurrences
    staying; a URL without it in that spelling is unchanged; and this is
    the url field of every integration node. *)
Theorem rewrite_removes_leftmost_exact_domain :
  (forall tail, rewrite_url (site_domain ++ tail) = tail)
  /\
  (forall pre post,
      JS.occurs site_domain (pre ++ "https://posthog.co") = false ->
      rewrite_url (pre ++ site_domain ++ post) = pre ++ post)
  /\
  (forall url, JS.occurs site_domain url = false -> rewrite_url url = url)
  /\
  (forall record u t,
      JS.nullish record = false ->
      JS.get "url" record = VStr u ->
      JS.to_string (JS.get "name" record) = Ok t ->
      exists n,
        integration_node createNodeId createContentDigest record = Ok n
        /\ JS.get "url" n = VStr (rewrite_url u)).
Proof.
  split; [|split; [|split]].
  - intros tail. unfold rewrite_url. now rewrite replace_first_prefix.
  - intros pre post H.
    exact (replace_first_leftmost "https://posthog.co" "m" "" post pre H).
  - exact rewrite_url_relative.
  - intros record u t Hr Hu Ht. eexists.
    split; [apply (integration_node_ok _ _ _ t u Hr Hu Ht)|].
    destruct record as [| | | | | |ps]; try discriminate.
    now rewrite spread_rest_named.
Qed.

End Rewrite.

Lemma rewrite_witness :
  rewrite_url "/go?to=https://posthog.com/docs" = "/go?to=/docs"
  /\ rewrite_url "/docs/integrations/segment" = "/docs/integrations/segment".
Proof.
  pose proof (rewrite_removes_leftmost_exact_domain
                Sample.createNodeId Sample.createContentDigest)
    as (_ & Hleft & Hrel & _).
  split.
  - exact (Hleft "/go?to=" "/docs" eq_refl).
  - exact (Hrel "/docs/integrations/segment" eq_refl).
Defined.

(** C3, as stated, fails: a URL that begins with the domain in upper case
    keeps it, and an occurrence that is not at the start is removed. *)
Lemma upper_case_domain_not_stripped :
  starts_with_ci site_domain "HTTPS://POSTHOG.COM/docs" = true
  /\ rewrite_url "HTTPS://POSTHOG.COM/docs"
     <> drop_chars (String.length site_domain) "HTTPS://POSTHOG.COM/docs"
  /\ rewrite_url "/go?to=https://posthog.com/docs" <> "/go?to=https://posthog.com/docs".
Proof. repeat split; try reflexivity; discriminate. Qed.

(** C9: a URL that is already site-relative, that is, one in which the
    domain does not occur, is left unchanged by the rewrite, so that
    rewriting it twice is rewriting it once. *)
Theorem rewrite_fixes_relative_urls (url : string) :
  JS.occurs site_domain url = false ->
  rewrite_url url = url
  /\ rewrite_url (rewrite_url url) = rewrite_url url.
Proof.
  intros H. pose proof (rewrite_url_relative url H) as E.
  split; [exact E | now rewrite E].
Qed.

Lemma rewrite_relative_witness :
  rewrite_url "/docs/api" = "/docs/api"
  /\ rewrite_url (rewrite_url "/docs/api") = rewrite_url "/docs/api".
Proof. exact (rewrite_fixes_relative_urls "/docs/api" eq_refl). Defined.

(** Outside that domain of URLs the rewrite is not idempotent: only the
    leftmost occurrence goes, and a second one comes to the front. *)
Lemma rewrite_twice_on_repeated_domain :
  rewrite_url "https://posthog.comhttps://posthog.com/docs" = "https://posthog.com/docs"
  /\ rewrite_url (rewrite_url "https://posthog.comhttps://posthog.com/docs") = "/docs".
Proof. split; reflexivity. Qed.

(** ** Digests *)

(** The loops depend on the payload alone: at whatever point of the build
    a payload is normalized, the same nodes are appended. *)
Lemma loop_reads_no_world (b : value -> M unit) (g : value -> result (list value))
      (payload : value) :
  pure_body b g ->
  forall w,
    forEach_of payload b w =
    (snd (feed_result (Json payload) g),
     mkWorld (requests w) (created w ++ fst (feed_result (Json payload) g))).
Proof.
  intros Hb w.
  destruct payload; simpl; unfold lift;
    try (now rewrite app_nil_r, world_eta).
  apply (forEach_collect b g Hb).
Qed.

Section Digests.

Variable createNodeId : string -> string.
Variable createContentDigest : value -> string.
Variable JSON_stringify : value -> value.

Lemma issue_node_inv (record n : value) :
  issue_node createNodeId createContentDigest record = Ok n ->
  JS.nullish record = false
  /\ exists t, JS.to_string (JS.get "title" record) = Ok t.
Proof.
  unfold issue_node, JS.prop. destruct (JS.nullish record); [discriminate|].
  simpl. destruct (JS.to_string (JS.get "title" record)) as [t|e];
    [eauto | discriminate].
Qed.

Lemma pull_node_inv (record n : value) :
  pull_node createNodeId createContentDigest record = Ok n ->
  JS.nullish record = false
  /\ exists t, JS.to_string (JS.get "title" record) = Ok t.
Proof.
  unfold pull_node, JS.prop. destruct (JS.nullish record); [discriminate|].
  simpl. destruct (JS.to_string (JS.get "title" record)) as [t|e];
    [eauto | discriminate].
Qed.

Lemma integration_node_inv (record n : value) :
  integration_node createNodeId createContentDigest record = Ok n ->
  exists ps u t,
    record = VObj ps
    /\ JS.get "url" record = VStr u
    /\ JS.to_string (JS.get "name" record) = Ok t.
Proof.
  unfold integration_node, JS.prop.
  destruct record as [| | | | | |ps]; try discriminate;
    cbn [JS.nullish rbind];
    try (destruct (JS.to_string _); discriminate).
  destruct (JS.to_string (JS.get "name" (VObj ps))) as [t|e]; [|discriminate].
  destruct (JS.get "url" (VObj ps)) as [| | | |u| |]; try discriminate.
  intros _. now exists ps, u, t.
Qed.

Lemma plugin_node_inv (plugin n : value) :
  plugin_node createNodeId createContentDigest plugin = Ok (Some n) ->
  exists ps t,
    plugin = VObj ps
    /\ displayed plugin = true
    /\ JS.to_string (JS.get "name" plugin) = Ok t.
Proof.
  unfold plugin_node, JS.prop, displayed.
  destruct plugin as [| | | | | |ps]; try discriminate.
  cbn [JS.nullish rbind].
  destruct (JS.truthy (JS.get "displayOnWebsiteLib" (VObj ps))); [|discriminate].
  destruct (JS.to_string (JS.get "name" (VObj ps))) as [t|e]; [|discriminate].
  intros _. now exists ps, t.
Qed.

Lemma lookup_none_of_has_key (k : string) (ps : list (string * value)) :
  JS.has_key k (VObj ps) = false -> JS.lookup k ps = None.
Proof. simpl. now destruct (JS.lookup k ps). Qed.

(** C4: the digest of a node is createContentDigest applied to a value
    that the record alone determines, whatever has been fetched or created
    before: for an issue or a pull request, the fields of the node itself;
    for an integration or a plugin, the whole upstream record (which has no
    internal property of its own); for an endpoint group, its items only,
    and for the components node the components only.  Normalizing a payload
    appends the same nodes, hence the same digests, in every state of the
    build. *)
Theorem digest_is_computed_from_the_record :
  (forall record n,
      issue_node createNodeId createContentDigest record = Ok n ->
      node_digest n = VStr (createContentDigest (node_fields n)))
  /\
  (forall record n,
      pull_node createNodeId createContentDigest record = Ok n ->
      node_digest n = VStr (createContentDigest (node_fields n)))
  /\
  (forall record n,
      integration_node createNodeId createContentDigest record = Ok n ->
      JS.has_key "internal" record = false ->
      node_digest n = VStr (createContentDigest record))
  /\
  (forall record n,
      plugin_node createNodeId createContentDigest record = Ok (Some n) ->
      JS.has_key "internal" record = false ->
      node_digest n = VStr (createContentDigest record))
  /\
  (forall endpoint n,
      api_endpoint_node createNodeId createContentDigest JSON_stringify endpoint
      = Ok n ->
      node_digest n =
      VStr (createContentDigest (VObj [("items", JS.get "items" endpoint)])))
  /\
  (forall api_endpoints n,
      api_components_node createNodeId createContentDigest JSON_stringify
        api_endpoints = Ok n ->
      node_digest n =
      VStr (createContentDigest
              (VObj [("components", JS.get "components" api_endpoints)])))
  /\
  (forall payload,
      exists r1 ns1 r2 ns2 r3 ns3 r4 ns4,
      forall w,
        normalize_issues createNodeId createContentDigest payload w =
        (r1, mkWorld (requests w) (created w ++ ns1))
        /\ normalize_pulls createNodeId createContentDigest payload w =
           (r2, mkWorld (requests w) (created w ++ ns2))
        /\ normalize_integrations createNodeId createContentDigest payload w =
           (r3, mkWorld (requests w) (created w ++ ns3))
        /\ normalize_plugins createNodeId createContentDigest payload w =
           (r4, mkWorld (requests w) (created w ++ ns4))).
Proof.
  split; [|split; [|split; [|split; [|split; [|split]]]]].
  - intros record n H. destruct (issue_node_inv _ _ H) as (Hr & t & Ht).
    rewrite (issue_node_ok _ _ _ t Hr Ht) in H. injection H as <-. reflexivity.
  - intros record n H. destruct (pull_node_inv _ _ H) as (Hr & t & Ht).
    rewrite (pull_node_ok _ _ _ t Hr Ht) in H. injection H as <-. reflexivity.
  - intros record n H Hi.
    destruct (integration_node_inv _ _ H) as (ps & u & t & -> & Hu & Ht).
    rewrite (integration_node_ok _ _ (VObj ps) t u eq_refl Hu Ht) in H. injection H as <-.
    unfold node_digest.
    rewrite spread_rest_keeps;
      [reflexivity | reflexivity | now apply lookup_none_of_has_key].
  - intros record n H Hi.
    destruct (plugin_node_inv _ _ H) as (ps & t & -> & Hd & Ht).
    rewrite (plugin_node_shown _ _ (VObj ps) t eq_refl Hd Ht) in H.
    injection H as <-. unfold node_digest.
    rewrite spread_rest_keeps;
      [reflexivity | reflexivity | now apply lookup_none_of_has_key].
  - intros endpoint n H. unfold api_endpoint_node, JS.prop in H.
    destruct (JS.nullish endpoint); [discriminate|]. cbn [rbind] in H.
    destruct (JS.to_string (JS.get "name" endpoint)); [|discriminate].
    cbn [rbind] in H.
    destruct (map_items (JS.get "items" endpoint)); [|discriminate].
    cbn [rbind] in H.
    destruct (JS.replace (JS.get "name" endpoint) "_" "-"); [|discriminate].
    cbn [rbind] in H. injection H as <-. reflexivity.
  - intros api_endpoints n H. unfold api_components_node, JS.prop in H.
    destruct (JS.nullish api_endpoints); [discriminate|]. cbn [rbind] in H.
    injection H as <-. reflexivity.
  - intros payload. do 8 eexists. intros w.
    unfold normalize_issues, normalize_pulls, normalize_integrations,
      normalize_plugins.
    rewrite !(loop_reads_no_world _ _ payload (emit_pure _)).
    rewrite (loop_reads_no_world _ _ payload (plugin_body_pure _ _)).
    repeat split.
Qed.

End Digests.

Lemma digest_witness :
  exists n,
    issue_node Sample.createNodeId Sample.createContentDigest
      Sample.example_issue = Ok n
    /\ node_digest n = VStr (Sample.createContentDigest (VObj example_issue_fields)).
Proof.
  eexists. split; [reflexivity|].
  exact (proj1 (digest_is_computed_from_the_record
                  Sample.createNodeId Sample.createContentDigest
                  Sample.JSON_stringify)
               Sample.example_issue _ eq_refl).
Defined.

(** C4, as stated, fails: two endpoint groups with the same operations and
    different names yield nodes that differ in their name and url fields
    and have the same digest. *)
Lemma endpoint_name_not_in_digest :
  exists n1 n2,
    api_endpoint_node Sample.createNodeId Sample.createContentDigest
      Sample.JSON_stringify Sample.group_a = Ok n1
    /\ api_endpoint_node Sample.createNodeId Sample.createContentDigest
         Sample.JSON_stringify Sample.group_b = Ok n2
    /\ JS.get "name" n1 <> JS.get "name" n2
    /\ JS.get "url" n1 <> JS.get "url" n2
    /\ node_digest n1 = node_digest n2.
Proof.
  do 2 eexists. split; [reflexivity|]. split; [reflexivity|].
  repeat split; discriminate.
Qed.

(** ** Exceptions of the loops *)

Lemma value_nested_ind (P : value -> Prop) :
  P VUndefined -> P VNull ->
  (forall b, P (VBool b)) -> (forall n, P (VNum n)) -> (forall s, P (VStr s)) ->
  (forall l, Forall P l -> P (VArr l)) ->
  (forall ps, Forall (fun p => P (snd p)) ps -> P (VObj ps)) ->
  forall v, P v.
Proof.
  intros Hu Hn Hb Hz Hs Ha Ho.
  fix rec 1.
  intros [| |b|n|s|l|ps];
    [exact Hu | exact Hn | apply Hb | apply Hz | apply Hs | | ].
  - apply Ha. induction l as [|x l IH]; constructor; [apply rec | exact IH].
  - apply Ho. induction ps as [|[k x] ps IH]; constructor; [apply rec | exact IH].
Qed.

Lemma to_string_array_cons (x : value) (l : list value) :
  JS.to_string (VArr (x :: l)) =
  match (if JS.nullish x then Ok "" else JS.to_string x) with
  | Throw e => Throw e
  | Ok sx =>
      match l with
      | [] => Ok sx
      | _ :: _ =>
          match JS.to_string (VArr l) with
          | Throw e => Throw e
          | Ok sl => Ok (sx ++ "," ++ sl)
          end
      end
  end.
Proof. reflexivity. Qed.

(** Printing a value in a template literal throws nothing but a
    TypeError. *)
Lemma to_string_throws_TypeError :
  forall v e, JS.to_string v = Throw e -> e = TypeError.
Proof.
  induction v using value_nested_ind; intros e He; try discriminate.
  - destruct b; discriminate.
  - induction H as [|x l Hx Hl IH].
    + discriminate.
    + rewrite to_string_array_cons in He.
      destruct (JS.nullish x).
      * destruct l; [discriminate|].
        destruct (JS.to_string (VArr (v :: l))) eqn:E; [discriminate|].
        injection He as <-. now apply IH.
      * destruct (JS.to_string x) eqn:Ex.
        -- destruct l; [discriminate|].
           destruct (JS.to_string (VArr (v :: l))) eqn:E; [discriminate|].
           injection He as <-. now apply IH.
        -- injection He as <-. now apply Hx.
  - simpl in He. destruct (JS.lookup "toString" ps); [|discriminate].
    now injection He as <-.
Qed.

Lemma prop_throws_TypeError (k : string) (v : value) (e : exn) :
  JS.prop k v = Throw e -> e = TypeError.
Proof.
  unfold JS.prop. destruct (JS.nullish v); [|discriminate].
  now intros [= <-].
Qed.

(** A loop stops at the first record on which its body throws: the nodes
    of the records before it are created, nothing of the records after. *)
Lemma collect_one_stops (f : value -> result value) (bad : value) (e : exn)
      (after : list value) :
  f bad = Throw e ->
  forall good ns,
    Forall2 (fun x n => f x = Ok n) good ns ->
    collect (one f) (good ++ bad :: after) = (ns, Throw e).
Proof.
  intros Hbad. induction 1 as [|x n good ns Hx _ IH]; simpl.
  - unfold one. now rewrite Hbad.
  - unfold one at 1. rewrite Hx. simpl. now rewrite IH.
Qed.

Lemma loop_stops (f : value -> result value) (bad : value) (e : exn)
      (good after ns : list value) (w : world) :
  f bad = Throw e ->
  Forall2 (fun x n => f x = Ok n) good ns ->
  forEach_of (VArr (good ++ bad :: after)) (emit f) w =
  (Throw e, mkWorld (requests w) (created w ++ ns)).
Proof.
  intros Hbad Hgood. simpl. rewrite (forEach_collect _ _ (emit_pure f)).
  now rewrite (collect_one_stops f bad e after Hbad good ns Hgood).
Qed.

Section Stops.

Variable createNodeId : string -> string.
Variable createContentDigest : value -> string.

Lemma issue_node_null (record : value) :
  JS.nullish record = true ->
  issue_node createNodeId createContentDigest record = Throw TypeError.
Proof. intros H. unfold issue_node, JS.prop. now rewrite H. Qed.

Lemma pull_node_null (record : value) :
  JS.nullish record = true ->
  pull_node createNodeId createContentDigest record = Throw TypeError.
Proof. intros H. unfold pull_node, JS.prop. now rewrite H. Qed.

(** X1: a null (or undefined) element in the issue or pull-request array
    makes the loop throw a TypeError there: the records before it have
    their nodes created, the records after it are never looked at. *)
Theorem null_record_stops_the_loop
        (good after ns : list value) (bad : value) (w : world) :
  JS.nullish bad = true ->
  (Forall2 (fun r n => issue_node createNodeId createContentDigest r = Ok n)
           good ns ->
   normalize_issues createNodeId createContentDigest
     (VArr (good ++ bad :: after)) w =
   (Throw TypeError, mkWorld (requests w) (created w ++ ns)))
  /\
  (Forall2 (fun r n => pull_node createNodeId createContentDigest r = Ok n)
           good ns ->
   normalize_pulls createNodeId createContentDigest
     (VArr (good ++ bad :: after)) w =
   (Throw TypeError, mkWorld (requests w) (created w ++ ns))).
Proof.
  intros Hbad. split; intros Hgood.
  - apply loop_stops; [now apply issue_node_null | exact Hgood].
  - apply loop_stops; [now apply pull_node_null | exact Hgood].
Qed.

(** An integration whose url is not a string has no node: the body throws
    a TypeError, on [url.replace] at the latest. *)
Lemma integration_without_url (record : value) :
  is_string (JS.get "url" record) = false ->
  integration_node createNodeId createContentDigest record = Throw TypeError.
Proof.
  intros Hu. unfold integration_node, JS.prop.
  destruct (JS.nullish record); [reflexivity|]. cbn [rbind].
  destruct (JS.to_string (JS.get "name" record)) as [t|e] eqn:Et.
  - cbn [rbind]. destruct (JS.get "url" record); try reflexivity. discriminate.
  - cbn [rbind]. now rewrite (to_string_throws_TypeError _ _ Et).
Qed.

(** X2: an integration record whose url is missing or is not a string
    stops the integrations loop with a TypeError: the integrations before
    it keep their nodes, those after it get none. *)
Theorem integration_without_url_stops_the_loop
        (good after ns : list value) (bad : value) (w : world) :
  is_string (JS.get "url" bad) = false ->
  Forall2 (fun r n => integration_node createNodeId createContentDigest r = Ok n)
          good ns ->
  normalize_integrations createNodeId createContentDigest
    (VArr (good ++ bad :: after)) w =
  (Throw TypeError, mkWorld (requests w) (created w ++ ns)).
Proof.
  intros Hbad Hgood.
  apply loop_stops; [now apply integration_without_url | exact Hgood].
Qed.

End Stops.

Lemma null_record_witness :
  normalize_issues Sample.createNodeId Sample.createContentDigest
    (VArr ([Sample.untitled_issue] ++ VNull :: [Sample.example_issue]))
    empty_world =
  (Throw TypeError,
   mkWorld [] [VObj [("id", VStr "posthog-issue-undefined");
                     ("parent", VNull);
                     ("children", VArr []);
                     ("internal",
                      internal_of "PostHogIssue"
                        (Sample.createContentDigest
                           (VObj [("url", VStr "https://github.com/x/y/issues/2");
                                  ("title", VUndefined);
                                  ("number", VNum 2);
                                  ("comments", VNum 0);
                                  ("user", undefined_author)])));
                     ("url", VStr "https://github.com/x/y/issues/2");
                     ("title", VUndefined);
                     ("number", VNum 2);
                     ("comments", VNum 0);
                     ("user", undefined_author)]]).
Proof.
  refine (proj1 (null_record_stops_the_loop
                   Sample.createNodeId Sample.createContentDigest
                   [Sample.untitled_issue] [Sample.example_issue] _ VNull
                   empty_world eq_refl) _).
  repeat constructor.
Defined.

Lemma integration_without_url_witness :
  normalize_integrations Sample.createNodeId Sample.createContentDigest
    (VArr ([] ++ VObj [("name", VStr "NoUrl")] :: [Sample.example_integration]))
    empty_world =
  (Throw TypeError, mkWorld [] []).
Proof.
  exact (integration_without_url_stops_the_loop
           Sample.createNodeId Sample.createContentDigest
           [] [Sample.example_integration] [] (VObj [("name", VStr "NoUrl")])
           empty_world eq_refl (Forall2_nil _)).
Defined.

(** ** What the loops and the pass keep *)

Lemma collect_one_in (f : value -> result value) :
  forall xs n,
    In n (fst (collect (one f) xs)) -> exists x, In x xs /\ f x = Ok n.
Proof.
  induction xs as [|x xs IH]; simpl; intros n Hn; [contradiction|].
  unfold one at 1 in Hn. destruct (f x) as [m|e] eqn:E; simpl in Hn.
  - destruct (collect (one f) xs) as [ms r]. simpl in *.
    destruct Hn as [<-|Hn].
    + exists x. split; [now left | exact E].
    + destruct (IH n Hn) as (y & Hy & Hfy). exists y. split; [now right | exact Hfy].
  - contradiction.
Qed.

(** Whatever the payload, the nodes a loop appends are nodes its body
    built. *)
Lemma loop_nodes_built (f : value -> result value) (payload : value) (w : world) :
  exists ns,
    created (snd (forEach_of payload (emit f) w)) = (created w ++ ns)%list
    /\ Forall (fun n => exists x, f x = Ok n) ns.
Proof.
  rewrite (loop_reads_no_world _ _ payload (emit_pure f)). simpl.
  eexists. split; [reflexivity|].
  apply Forall_forall. intros n Hn.
  destruct payload; simpl in Hn; try contradiction.
  destruct (collect_one_in f _ n Hn) as (x & _ & Hx). now exists x.
Qed.

Section Tags.

Variable createNodeId : string -> string.
Variable createContentDigest : value -> string.

(** X3: whatever the issue or pull-request endpoint answered, and whether
    the loop ends or throws half-way, every node the loop has appended
    carries its feed's type tag, a null parent and an identifier seeded
    with the feed's prefix; no field of a record can overwrite them, and a
    pull-request node never has a comments field. *)
Theorem issue_and_pull_nodes_are_tagged (payload : value) (w : world) :
  (exists ns,
      created (snd (normalize_issues createNodeId createContentDigest payload w))
      = (created w ++ ns)%list
      /\ Forall (fun n =>
                   node_type n = VStr "PostHogIssue"
                   /\ JS.get "parent" n = VNull
                   /\ exists t, node_id n = seeded createNodeId "posthog-issue-" t)
                ns)
  /\
  (exists ns,
      created (snd (normalize_pulls createNodeId createContentDigest payload w))
      = (created w ++ ns)%list
      /\ Forall (fun n =>
                   node_type n = VStr "PostHogPull"
                   /\ JS.get "parent" n = VNull
                   /\ JS.has_key "comments" n = false
                   /\ exists t, node_id n = seeded createNodeId "posthog-pull-" t)
                ns).
Proof.
  split.
  - destruct (loop_nodes_built (issue_node createNodeId createContentDigest)
                payload w) as (ns & Hns & Hall).
    exists ns. split; [exact Hns|].
    eapply Forall_impl; [|exact Hall]. intros n (x & Hx).
    destruct (issue_node_inv _ _ _ _ Hx) as (Hr & t & Ht).
    rewrite (issue_node_ok _ _ _ t Hr Ht) in Hx. injection Hx as <-.
    repeat split. now exists t.
  - destruct (loop_nodes_built (pull_node createNodeId createContentDigest)
                payload w) as (ns & Hns & Hall).
    exists ns. split; [exact Hns|].
    eapply Forall_impl; [|exact Hall]. intros n (x & Hx).
    destruct (pull_node_inv _ _ _ _ Hx) as (Hr & t & Ht).
    rewrite (pull_node_ok _ _ _ t Hr Ht) in Hx. injection Hx as <-.
    repeat split. now exists t.
Qed.

End Tags.

(** *** The requests of a pass *)







Section Growth.

Variable createNodeId : string -> string.
Variable createContentDigest : value -> string.
Variable POSTHOG_APP_API_KEY : option string.
Variable network : request -> response.
Variable buildStructure : value -> value -> result (list value).
Variable JSON_stringify : value -> value.





(** X5: when the schema feed has ended normally and each of the four
    other endpoints answers with an array that its loop gets through, the
    pass ends normally, having issued the four requests in the order
    issues, pull requests, integrations, plugins, without headers, and
    having created the nodes feed by feed in that order. *)
Theorem pass_succeeds_feed_by_feed (w w1 : world) (ns1 ns2 ns3 ns4 : list value) :
  schema_feed createNodeId createContentDigest POSTHOG_APP_API_KEY network
    buildStructure JSON_stringify w = (Ok tt, w1) ->
  feed_result (network (feed_request issues_url))
    (one (issue_node createNodeId createContentDigest)) = (ns1, Ok tt) ->
  feed_result (network (feed_request pulls_url))
    (one (pull_node createNodeId createContentDigest)) = (ns2, Ok tt) ->
  feed_result (network (feed_request integrations_url))
    (one (integration_node createNodeId createContentDigest)) = (ns3, Ok tt) ->
  feed_result (network (feed_request plugins_url))
    (opt (plugin_node createNodeId createContentDigest)) = (ns4, Ok tt) ->
  sourceNodes createNodeId createContentDigest POSTHOG_APP_API_KEY network
    buildStructure JSON_stringify w =
  (Ok tt,
   mkWorld (requests w1 ++ [feed_request issues_url; feed_request pulls_url;
                            feed_request integrations_url;
                            feed_request plugins_url])
           (created w1 ++ ns1 ++ ns2 ++ ns3 ++ ns4)).
Proof.
  intros Hs H1 H2 H3 H4. unfold sourceNodes.
  rewrite (seq_ok _ _ _ _ Hs). unfold bind at 1.
  rewrite issues_feed_spec, H1. simpl. unfold bind at 1.
  rewrite pulls_feed_spec, H2. simpl. unfold bind at 1.
  rewrite integrations_feed_spec, H3. simpl.
  rewrite plugins_feed_spec, H4. simpl.
  now rewrite <- !app_assoc.
Qed.

End Growth.


Lemma pass_succeeds_witness :
  Sample.run None Sample.network_ok =
  (Ok tt,
   mkWorld [feed_request issues_url; feed_request pulls_url;
            feed_request integrations_url; feed_request plugins_url]
           (fst (feed_result (Json (VArr [Sample.example_issue]))
                   (one (issue_node Sample.createNodeId Sample.createContentDigest)))
            ++ fst (feed_result (Json (VArr [Sample.example_pull]))
                      (one (pull_node Sample.createNodeId Sample.createContentDigest)))
            ++ fst (feed_result (Json (VArr [Sample.example_integration]))
                      (one (integration_node Sample.createNodeId
                              Sample.createContentDigest)))
            ++ fst (feed_result (Json (VArr [Sample.hidden_plugin; Sample.shown_plugin]))
                      (opt (plugin_node Sample.createNodeId
                              Sample.createContentDigest))))).
Proof.
  exact (pass_succeeds_feed_by_feed
           Sample.createNodeId Sample.createContentDigest None
           Sample.network_ok Sample.buildStructure Sample.JSON_stringify
           empty_world empty_world _ _ _ _
           eq_refl eq_refl eq_refl eq_refl eq_refl).
Defined.

(** ** Fields passed through *)

Lemma lookup_in_keys (k : string) (v : value) :
  forall ps, JS.lookup k ps = Some v -> In k (map fst ps).
Proof.
  induction ps as [|[k' v'] ps IH]; simpl; [discriminate|].
  destruct (k' =? k) eqn:E.
  - apply String.eqb_eq in E. now left.
  - intros H. right. now apply IH.
Qed.

Lemma lookup_not_in_keys (k : string) :
  forall ps, ~ In k (map fst ps) -> JS.lookup k ps = None.
Proof.
  intros ps H. destruct (JS.lookup k ps) as [v|] eqn:E; [|reflexivity].
  exfalso. apply H. exact (lookup_in_keys k v ps E).
Qed.

(** A spread copies every property of a source that has no key twice. *)
Lemma lookup_spread_present (k : string) (v : value) :
  forall src target,
    unique_keys src ->
    JS.lookup k src = Some v ->
    JS.lookup k (fold_left (fun acc p => JS.set (fst p) (snd p) acc) src target)
    = Some v.
Proof.
  induction src as [|[k' v'] src IH]; intros target Hu H; simpl in *.
  - discriminate.
  - inversion Hu as [|? ? Hnotin Hu']; subst.
    destruct (k' =? k) eqn:E.
    + apply String.eqb_eq in E. subst k'. injection H as ->.
      rewrite lookup_spread_absent by now apply lookup_not_in_keys.
      apply lookup_set_same.
    + now apply IH.
Qed.

Lemma unique_keys_filter (f : string * value -> bool) :
  forall ps, unique_keys ps -> unique_keys (filter f ps).
Proof.
  unfold unique_keys. induction ps as [|p ps IH]; simpl; intros H.
  - constructor.
  - inversion H as [|? ? Hnotin H']; subst.
    destruct (f p); simpl; [|now apply IH].
    constructor; [|now apply IH].
    intros Hin. apply Hnotin. apply in_map_iff in Hin.
    destruct Hin as (q & Hq & Hin). apply filter_In in Hin.
    apply in_map_iff. exists q. now split.
Qed.

(** A key of the record that the rest pattern does not name arrives in
    the node with the record's value, whatever the literal held there. *)
Lemma spread_rest_copies (k : string) (ks : list string)
      (target ps : list (string * value)) :
  unique_keys ps ->
  JS.mem k ks = false ->
  JS.has_key k (VObj ps) = true ->
  JS.get k (VObj (JS.spread target (JS.rest ks (VObj ps)))) = JS.get k (VObj ps).
Proof.
  intros Hu Hk Hhas. unfold JS.spread, JS.rest, JS.own_props. simpl in *.
  destruct (JS.lookup k ps) as [v|] eqn:E; [|discriminate].
  rewrite (lookup_spread_present k v); [reflexivity | |].
  - now apply unique_keys_filter.
  - now rewrite lookup_rest_other.
Qed.

(** A key that the rest pattern names and the literal does not write is
    not in the node. *)
Lemma spread_rest_lacks (k : string) (ks : list string)
      (target ps : list (string * value)) :
  JS.mem k ks = true ->
  JS.lookup k target = None ->
  JS.has_key k (VObj (JS.spread target (JS.rest ks (VObj ps)))) = false.
Proof.
  intros Hk Ht. unfold JS.has_key, JS.spread, JS.rest, JS.own_props.
  rewrite lookup_spread_absent by now apply lookup_rest_named.
  now rewrite Ht.
Qed.

Section PassThrough.

Variable createNodeId : string -> string.
Variable createContentDigest : value -> string.

(** X6: an integration node carries every field of its record unchanged,
    except url, which is rewritten.  The record's fields are spread last,
    so a record that has an id, parent, children or internal property of
    its own overwrites the one the hook has just built: its id becomes
    the node's identifier. *)
Theorem integration_fields_pass_through (ps : list (string * value)) (n : value) :
  unique_keys ps ->
  integration_node createNodeId createContentDigest (VObj ps) = Ok n ->
  (forall k, k <> "url" -> JS.has_key k (VObj ps) = true ->
             JS.get k n = JS.get k (VObj ps))
  /\ (exists u, JS.get "url" (VObj ps) = VStr u
                /\ JS.get "url" n = VStr (rewrite_url u))
  /\ (JS.has_key "id" (VObj ps) = true -> node_id n = JS.get "id" (VObj ps)).
Proof.
  intros Hu Hn.
  destruct (integration_node_inv _ _ _ _ Hn) as (ps' & u & t & Heq & Hurl & Ht).
  rewrite (integration_node_ok _ _ (VObj ps) t u eq_refl Hurl Ht) in Hn.
  injection Hn as <-.
  assert (Hcopy : forall k, k <> "url" -> JS.has_key k (VObj ps) = true ->
                            JS.get k (VObj (JS.spread
              [("id", VStr (createNodeId ("integration-" ++ t)));
               ("parent", VNull);
               ("children", VArr []);
               ("internal", internal_of "Integration" (createContentDigest (VObj ps)));
               ("url", VStr (rewrite_url u));
               ("name", JS.get "name" (VObj ps))]
              (JS.rest ["name"; "url"] (VObj ps)))) = JS.get k (VObj ps)).
  { intros k Hk Hhas. destruct (k =? "name") eqn:En.
    - apply String.eqb_eq in En. subst k.
      now rewrite spread_rest_named.
    - apply spread_rest_copies; [exact Hu | | exact Hhas].
      unfold JS.mem. simpl. rewrite En.
      apply String.eqb_neq in Hk. now rewrite Hk. }
  split; [exact Hcopy|]. split.
  - exists u. split; [exact Hurl|]. now rewrite spread_rest_named.
  - intros Hid. apply Hcopy; [discriminate | exact Hid].
Qed.

(** X7: a plugin node carries every field of its record unchanged, except
    the display flag, which it never has. *)
Theorem plugin_fields_pass_through (ps : list (string * value)) (n : value) :
  unique_keys ps ->
  plugin_node createNodeId createContentDigest (VObj ps) = Ok (Some n) ->
  JS.has_key "displayOnWebsiteLib" n = false
  /\ (forall k, k <> "displayOnWebsiteLib" -> JS.has_key k (VObj ps) = true ->
                JS.get k n = JS.get k (VObj ps)).
Proof.
  intros Hu Hn.
  destruct (plugin_node_inv _ _ _ _ Hn) as (ps' & t & Heq & Hd & Ht).
  rewrite (plugin_node_shown _ _ (VObj ps) t eq_refl Hd Ht) in Hn.
  injection Hn as <-. split.
  - now apply spread_rest_lacks.
  - intros k Hk Hhas. destruct (k =? "name") eqn:En.
    + apply String.eqb_eq in En. subst k.
      now rewrite spread_rest_named.
    + apply spread_rest_copies; [exact Hu | | exact Hhas].
      unfold JS.mem. simpl. rewrite En.
      apply String.eqb_neq in Hk. now rewrite Hk.
Qed.

End PassThrough.

Lemma integration_pass_through_witness :
  exists n,
    integration_node Sample.createNodeId Sample.createContentDigest
      (VObj [("name", VStr "Segment");
             ("url", VStr "https://posthog.com/docs/integrations/segment");
             ("id", VStr "mine")]) = Ok n
    /\ node_id n = VStr "mine".
Proof.
  eexists. split; [reflexivity|].
  refine (proj2 (proj2 (integration_fields_pass_through
                          Sample.createNodeId Sample.createContentDigest
                          [("name", VStr "Segment");
                           ("url", VStr "https://posthog.com/docs/integrations/segment");
                           ("id", VStr "mine")] _ _ eq_refl)) eq_refl).
  repeat constructor; simpl; intuition discriminate.
Defined.

Lemma plugin_pass_through_witness :
  exists n,
    plugin_node Sample.createNodeId Sample.createContentDigest
      Sample.shown_plugin = Ok (Some n)
    /\ JS.has_key "displayOnWebsiteLib" n = false
    /\ JS.get "url" n = VStr "https://github.com/x/geoip".
Proof.
  eexists. split; [reflexivity|].
  assert (Hu : unique_keys [("displayOnWebsiteLib", VBool true);
                            ("name", VStr "GeoIP");
                            ("url", VStr "https://github.com/x/geoip")])
    by (repeat constructor; simpl; intuition discriminate).
  destruct (plugin_fields_pass_through
              Sample.createNodeId Sample.createContentDigest _ _ Hu eq_refl)
    as [Hflag Hcopy].
  split; [exact Hflag|].
  apply (Hcopy "url"); [discriminate | reflexivity].
Defined.

(** ** Endpoint groups *)

Lemma operation_item_spec (item : value) :
  operation_item item =
  if JS.nullish item then Throw TypeError
  else Ok (VObj (JS.set "parent" VNull
                   (JS.set "operationSpec" (JS.get "operationSpec" item)
                      (JS.spread [] item)))).
Proof. unfold operation_item, JS.prop. now destruct (JS.nullish item). Qed.

Lemma rmap_operation_items :
  forall l,
    if existsb JS.nullish l
    then rmap operation_item l = Throw TypeError
    else exists l',
        rmap operation_item l = Ok l'
        /\ Forall2 (fun item m => operation_item item = Ok m) l l'.
Proof.
  induction l as [|x l IH]; simpl.
  - exists []. split; [reflexivity | constructor].
  - rewrite operation_item_spec. destruct (JS.nullish x) eqn:Ex; simpl.
    + reflexivity.
    + destruct (existsb JS.nullish l).
      * now rewrite IH.
      * destruct IH as (l' & -> & Hl'). simpl. eexists. split; [reflexivity|].
        constructor; [|exact Hl'].
        rewrite operation_item_spec. now rewrite Ex.
Qed.

(** A copy keeps the value of every key of an object without repeated
    keys. *)
Lemma spread_copy_get (k : string) (ps : list (string * value)) :
  unique_keys ps ->
  JS.get k (VObj (JS.spread [] (VObj ps))) = JS.get k (VObj ps).
Proof.
  intros Hu. unfold JS.spread, JS.own_props. simpl.
  destruct (JS.lookup k ps) as [v|] eqn:E.
  - now rewrite (lookup_spread_present k v).
  - now rewrite lookup_spread_absent.
Qed.

Lemma append_nil_r_s (s : string) : s ++ "" = s.
Proof. induction s as [|c s IH]; simpl; [reflexivity | now rewrite IH]. Qed.

Section Endpoints.

Variable createNodeId : string -> string.
Variable createContentDigest : value -> string.
Variable JSON_stringify : value -> value.

Let node_of := api_endpoint_node createNodeId createContentDigest JSON_stringify.

(** The body of the endpoint loop, case by case. *)
Lemma api_endpoint_node_spec (endpoint : value) :
  node_of endpoint =
  match JS.get "name" endpoint, JS.get "items" endpoint with
  | VStr name, VArr l =>
      if existsb JS.nullish l then Throw TypeError
      else
        match rmap operation_item l with
        | Ok l' =>
            Ok (VObj [("id", VStr (createNodeId ("api_endpoint-" ++ name)));
                      ("internal",
                       internal_of "api_endpoint"
                         (createContentDigest (VObj [("items", VArr l)])));
                      ("items", JSON_stringify (VArr l'));
                      ("schema", VArr l');
                      ("url", VStr ("/docs/api/" ++ JS.replace_first "_" "-" name));
                      ("name", VStr name)])
        | Throw e => Throw e
        end
  | _, _ => Throw TypeError
  end.
Proof.
  unfold node_of, api_endpoint_node, JS.prop.
  destruct endpoint as [| | | | | |ps]; try reflexivity.
  cbn [JS.nullish rbind].
  destruct (JS.to_string (JS.get "name" (VObj ps))) as [t|e] eqn:Et.
  - cbn [rbind].
    destruct (JS.get "items" (VObj ps)) as [| | | | |l|] eqn:Ei;
      cbn [map_items rbind];
      try (destruct (JS.get "name" (VObj ps)); reflexivity).
    pose proof (rmap_operation_items l) as Hl.
    destruct (existsb JS.nullish l).
    + rewrite Hl. cbn [rbind]. destruct (JS.get "name" (VObj ps)); reflexivity.
    + destruct Hl as (l' & -> & _). cbn [rbind].
      destruct (JS.get "name" (VObj ps)); try reflexivity.
      simpl in Et. injection Et as <-. reflexivity.
  - cbn [rbind]. rewrite (to_string_throws_TypeError _ _ Et).
    destruct (JS.get "name" (VObj ps)); try reflexivity; discriminate.
Qed.

End Endpoints.

Lemma mapped_item_fields (item m : value) :
  operation_item item = Ok m ->
  JS.get "parent" m = VNull
  /\ JS.get "operationSpec" m = JS.get "operationSpec" item
  /\ forall ps k,
      item = VObj ps -> unique_keys ps ->
      k <> "parent" -> k <> "operationSpec" ->
      JS.get k m = JS.get k item.
Proof.
  rewrite operation_item_spec. destruct (JS.nullish item); [discriminate|].
  intros [= <-]. split; [|split].
  - unfold JS.get. now rewrite lookup_set_same.
  - unfold JS.get at 1.
    rewrite lookup_set_other by discriminate. now rewrite lookup_set_same.
  - intros ps k -> Hu Hp Ho.
    rewrite <- (spread_copy_get k ps Hu). unfold JS.get.
    rewrite !lookup_set_other by congruence. reflexivity.
Qed.

Lemma first_underscore_dashed (pre post : string) :
  JS.occurs "_" pre = false ->
  JS.replace_first "_" "-" (pre ++ "_" ++ post) = pre ++ "-" ++ post.
Proof.
  intros H.
  apply (replace_first_leftmost "" "_"%char "-" post pre).
  now rewrite append_nil_r_s.
Qed.

Section EndpointNodes.

Variable createNodeId : string -> string.
Variable createContentDigest : value -> string.
Variable JSON_stringify : value -> value.

Let node_of := api_endpoint_node createNodeId createContentDigest JSON_stringify.

(** X8: an endpoint group yields a node exactly when its name is a string
    and its items is an array without null or undefined entries; in every
    other case the body throws, and what it throws is a TypeError. *)
Theorem endpoint_group_yields_a_node_iff (endpoint : value) :
  ((exists n, node_of endpoint = Ok n) <->
   (exists name l,
       JS.get "name" endpoint = VStr name
       /\ JS.get "items" endpoint = VArr l
       /\ existsb JS.nullish l = false))
  /\ (forall e, node_of endpoint = Throw e -> e = TypeError).
Proof.
  unfold node_of. rewrite api_endpoint_node_spec.
  destruct (JS.get "name" endpoint) as [| | | |name| |]; lazy beta iota;
    try (split; [split; [intros [m H]; discriminate
                        | intros (? & ? & H & _); discriminate]
                | intros e H; now injection H as <-]).
  destruct (JS.get "items" endpoint) as [| | | | |l|]; lazy beta iota;
    try (split; [split; [intros [m H]; discriminate
                        | intros (? & ? & _ & H & _); discriminate]
                | intros e H; now injection H as <-]).
  pose proof (rmap_operation_items l) as Hl.
  destruct (existsb JS.nullish l) eqn:El.
  - split; [split|].
    + intros [m H]. discriminate.
    + intros (? & l0 & _ & Hl0 & H). injection Hl0 as <-. congruence.
    + intros e H. now injection H as <-.
  - destruct Hl as (l' & -> & _). split; [split|].
    + intros _. now exists name, l.
    + intros _. eexists. reflexivity.
    + intros e H. discriminate.
Qed.

(** X9: in the node of an endpoint group, schema is the list of the
    group's items, one entry per item and in the same order, each entry a
    copy of its item with parent set to null and operationSpec and every
    other field kept; the items field is JSON.stringify of that same list;
    the name is the group's name. *)
Theorem endpoint_node_lists_its_items (endpoint n : value) :
  node_of endpoint = Ok n ->
  exists name l l',
    JS.get "name" endpoint = VStr name
    /\ JS.get "items" endpoint = VArr l
    /\ JS.get "name" n = VStr name
    /\ JS.get "schema" n = VArr l'
    /\ JS.get "items" n = JSON_stringify (VArr l')
    /\ Forall2 (fun item m =>
                  JS.get "parent" m = VNull
                  /\ JS.get "operationSpec" m = JS.get "operationSpec" item
                  /\ forall ps k,
                      item = VObj ps -> unique_keys ps ->
                      k <> "parent" -> k <> "operationSpec" ->
                      JS.get k m = JS.get k item)
               l l'.
Proof.
  unfold node_of. rewrite api_endpoint_node_spec.
  destruct (JS.get "name" endpoint) as [| | | |name| |]; try discriminate.
  destruct (JS.get "items" endpoint) as [| | | | |l|]; try discriminate.
  pose proof (rmap_operation_items l) as Hl.
  destruct (existsb JS.nullish l); [discriminate|].
  destruct Hl as (l' & -> & Hl'). intros [= <-].
  exists name, l, l'. repeat split.
  eapply Forall2_impl; [|exact Hl']. intros item m. apply mapped_item_fields.
Qed.

(** X10: the url of an endpoint group's node is /docs/api/ followed by the
    group's name with its first underscore, and only the first, turned
    into a dash; a name without underscores is used as it is. *)
Theorem endpoint_url_dashes_first_underscore (endpoint n : value) (name : string) :
  node_of endpoint = Ok n ->
  JS.get "name" endpoint = VStr name ->
  (JS.occurs "_" name = false -> JS.get "url" n = VStr ("/docs/api/" ++ name))
  /\ (forall pre post,
         name = pre ++ "_" ++ post ->
         JS.occurs "_" pre = false ->
         JS.get "url" n = VStr ("/docs/api/" ++ pre ++ "-" ++ post)).
Proof.
  unfold node_of. rewrite api_endpoint_node_spec. intros Hn Hname.
  rewrite Hname in Hn.
  destruct (JS.get "items" endpoint) as [| | | | |l|]; try discriminate.
  destruct (existsb JS.nullish l); [discriminate|].
  destruct (rmap operation_item l) as [l'|]; [|discriminate].
  injection Hn as <-.
  match goal with
  | |- context [JS.get "url" ?o] =>
      change (JS.get "url" o)
        with (VStr ("/docs/api/" ++ JS.replace_first "_" "-" name))
  end.
  split.
  - intros H. now rewrite replace_first_absent.
  - intros pre post -> H. now rewrite first_underscore_dashed.
Qed.

Hypothesis createNodeId_injective :
  forall a b, createNodeId a = createNodeId b -> a = b.

(** X11: the node of an endpoint group and the components node, which are
    created under different type tags, have the same identifier exactly
    when the group is named "components" (createNodeId sending distinct
    seeds to distinct identifiers). *)
Theorem components_group_shares_the_components_id (endpoint api n c : value) :
  node_of endpoint = Ok n ->
  api_components_node createNodeId createContentDigest JSON_stringify api = Ok c ->
  node_type n = VStr "api_endpoint"
  /\ node_type c = VStr "ApiComponents"
  /\ (node_id n = node_id c <-> JS.get "name" endpoint = VStr "components").
Proof.
  unfold node_of. rewrite api_endpoint_node_spec. intros Hn Hc.
  unfold api_components_node, JS.prop in Hc.
  destruct (JS.nullish api); [discriminate|]. injection Hc as <-.
  destruct (JS.get "name" endpoint) as [| | | |name| |]; try discriminate.
  destruct (JS.get "items" endpoint) as [| | | | |l|]; try discriminate.
  destruct (existsb JS.nullish l); [discriminate|].
  destruct (rmap operation_item l) as [l'|]; [|discriminate].
  injection Hn as <-. split; [reflexivity|]. split; [reflexivity|].
  unfold node_id. simpl. split.
  - intros [= H]. apply createNodeId_injective in H.
    f_equal. exact (append_cancel_l "api_endpoint-" name "components" H).
  - now intros [= ->].
Qed.

End EndpointNodes.

Lemma endpoint_items_witness :
  exists l',
    JS.get "schema"
      (VObj [("id", VStr "api_endpoint-a_b");
             ("internal", internal_of "api_endpoint" "{items:[{n:1;};];}");
             ("items", VStr "[{n:1;operationSpec:undefined;parent:null;};]");
             ("schema", VArr [VObj [("n", VNum 1);
                                    ("operationSpec", VUndefined);
                                    ("parent", VNull)]]);
             ("url", VStr "/docs/api/a-b");
             ("name", VStr "a_b")]) = VArr l'
    /\ length l' = 1%nat.
Proof.
  destruct (endpoint_node_lists_its_items
              Sample.createNodeId Sample.createContentDigest
              Sample.JSON_stringify
              (VObj [("name", VStr "a_b");
                     ("items", VArr [VObj [("n", VNum 1)]])])
              _ eq_refl)
    as (name & l & l' & _ & Hl & _ & Hs & _ & Hall).
  exists l'. split; [exact Hs|].
  injection Hl as <-. now rewrite <- (Forall2_length Hall).
Defined.

Lemma endpoint_url_witness :
  JS.get "url"
    (VObj [("id", VStr "api_endpoint-a_b_c");
           ("internal", internal_of "api_endpoint" "{items:[];}");
           ("items", VStr "[]");
           ("schema", VArr []);
           ("url", VStr "/docs/api/a-b_c");
           ("name", VStr "a_b_c")])
  = VStr ("/docs/api/" ++ "a" ++ "-" ++ "b_c").
Proof.
  exact (proj2 (endpoint_url_dashes_first_underscore
                  Sample.createNodeId Sample.createContentDigest
                  Sample.JSON_stringify
                  (VObj [("name", VStr "a_b_c"); ("items", VArr [])])
                  _ "a_b_c" eq_refl eq_refl)
               "a" "b_c" eq_refl eq_refl).
Defined.

Lemma components_id_witness :
  node_id (VObj [("id", VStr "api_endpoint-components");
                 ("internal", internal_of "api_endpoint" "{items:[];}");
                 ("items", VStr "[]");
                 ("schema", VArr []);
                 ("url", VStr "/docs/api/components");
                 ("name", VStr "components")])
  = node_id (VObj [("id", VStr "api_endpoint-components");
                   ("internal", internal_of "ApiComponents" "{components:undefined;}");
                   ("components", VStr "undefined")]).
Proof.
  exact (proj2 (proj2 (proj2 (components_group_shares_the_components_id
                                Sample.createNodeId Sample.createContentDigest
                                Sample.JSON_stringify (fun a b H => H)
                                (VObj [("name", VStr "components");
                                       ("items", VArr [])])
                                (VObj []) _ _ eq_refl eq_refl)))
               eq_refl).
Defined.

(** ** The schema feed with a key *)

Section SchemaFeed.

Variable createNodeId : string -> string.
Variable createContentDigest : value -> string.
Variable network : request -> response.
Variable buildStructure : value -> value -> result (list value).
Variable JSON_stringify : value -> value.

Lemma schema_feed_keyed (key : string) (w : world) :
  key <> "" ->
  schema_feed createNodeId createContentDigest (Some key) network
    buildStructure JSON_stringify w =
  schema_feed_with createNodeId createContentDigest network
    buildStructure JSON_stringify key w.
Proof.
  intros Hk. unfold schema_feed. apply String.eqb_neq in Hk. now rewrite Hk.
Qed.

(** X12: with a key, a schema that parses, and a menu whose last entry
    lists the endpoint groups, the schema feed issues exactly one request,
    to the schema endpoint with the key as a Bearer token, and creates one
    node per group, in menu order, followed by the single components node,
    whose digest and content are taken from the schema's components. *)
Theorem schema_feed_creates_groups_then_components
        (key : string) (api : value) (menu endpoints ns : list value)
        (w : world) :
  key <> "" ->
  network (schema_request key) = Json api ->
  JS.nullish api = false ->
  buildStructure (VObj [("spec", api)]) (VObj []) = Ok menu ->
  JS.get "items" (last menu VUndefined) = VArr endpoints ->
  Forall2 (fun e n =>
             api_endpoint_node createNodeId createContentDigest JSON_stringify e
             = Ok n)
          endpoints ns ->
  schema_feed createNodeId createContentDigest (Some key) network
    buildStructure JSON_stringify w =
  (Ok tt,
   mkWorld
     (requests w ++ [mkRequest schema_url
                       [("Authorization", "Bearer " ++ key);
                        ("accept", "application/json")]])
     (created w ++ ns ++
      [VObj [("id", VStr (createNodeId "api_endpoint-components"));
             ("internal",
              internal_of "ApiComponents"
                (createContentDigest
                   (VObj [("components", JS.get "components" api)])));
             ("components", JSON_stringify (JS.get "components" api))]])).
Proof.
  intros Hk Hnet Hapi Hmenu Hitems Hns.
  rewrite (schema_feed_keyed key w Hk).
  unfold schema_feed_with, bind at 1, fetch_json.
  unfold schema_request in Hnet. rewrite Hnet.
  unfold bind at 1, lift. rewrite Hmenu.
  unfold bind at 1, JS.prop.
  assert (Hlast : JS.nullish (last menu VUndefined) = false)
    by (destruct (last menu VUndefined); try discriminate; reflexivity).
  rewrite Hlast, Hitems.
  unfold bind at 1. rewrite (loop_creates_all _ endpoints ns _ Hns).
  unfold bind, api_components_node, JS.prop. rewrite Hapi.
  unfold rbind, createNode. cbn [requests created].
  now rewrite <- app_assoc.
Qed.

(** X13: with a key and a schema that parses, a menu that is empty, or
    whose last entry has no array of items, makes the schema feed throw a
    TypeError after its request: no node is created, the components node
    included. *)
Theorem schema_feed_needs_a_menu
        (key : string) (api : value) (menu : list value) (w : world) :
  key <> "" ->
  network (schema_request key) = Json api ->
  buildStructure (VObj [("spec", api)]) (VObj []) = Ok menu ->
  (forall l, JS.get "items" (last menu VUndefined) <> VArr l) ->
  schema_feed createNodeId createContentDigest (Some key) network
    buildStructure JSON_stringify w =
  (Throw TypeError,
   mkWorld (requests w ++ [schema_request key]) (created w)).
Proof.
  intros Hk Hnet Hmenu Hitems.
  rewrite (schema_feed_keyed key w Hk).
  unfold schema_feed_with, bind at 1, fetch_json.
  fold (schema_request key). rewrite Hnet.
  unfold bind at 1, lift. rewrite Hmenu.
  unfold bind at 1, JS.prop.
  destruct (JS.nullish (last menu VUndefined)); [reflexivity|].
  unfold bind at 1.
  destruct (JS.get "items" (last menu VUndefined)) as [| | | | |l|];
    try reflexivity.
  now destruct (Hitems l).
Qed.

End SchemaFeed.

Lemma schema_feed_witness :
  exists nodes,
    schema_feed Sample.createNodeId Sample.createContentDigest (Some "k")
      sample_schema_network Sample.buildStructure Sample.JSON_stringify
      empty_world =
    (Ok tt, mkWorld [schema_request "k"] nodes)
    /\ length nodes = 3%nat.
Proof.
  eexists. split.
  - refine (schema_feed_creates_groups_then_components
              Sample.createNodeId Sample.createContentDigest
              sample_schema_network Sample.buildStructure Sample.JSON_stringify
              "k" sample_schema _ [Sample.group_a; Sample.group_b] _ empty_world
              _ eq_refl eq_refl eq_refl eq_refl _).
    + discriminate.
    + repeat constructor.
  - reflexivity.
Defined.

Lemma empty_menu_witness :
  schema_feed Sample.createNodeId Sample.createContentDigest (Some "k")
    empty_menu_network Sample.buildStructure Sample.JSON_stringify empty_world =
  (Throw TypeError, mkWorld [schema_request "k"] []).
Proof.
  refine (schema_feed_needs_a_menu
            Sample.createNodeId Sample.createContentDigest
            empty_menu_network Sample.buildStructure Sample.JSON_stringify
            "k" (VObj [("menu", VArr [])]) [] empty_world
            _ eq_refl eq_refl _).
  - discriminate.
  - intros l. discriminate.
Defined.

(** ** The question form *)

Lemma has_key_set (k f : string) (x : value) (errs : list (string * value)) :
  JS.has_key k (VObj (JS.set f x errs)) = (f =? k) || JS.has_key k (VObj errs).
Proof.
  unfold JS.has_key. destruct (f =? k) eqn:E; simpl.
  - apply String.eqb_eq in E. subst f. now rewrite lookup_set_same.
  - rewrite lookup_set_other; [reflexivity|]. now apply String.eqb_neq.
Qed.

Lemma has_key_require (k f : string) (values : value) (errs : list (string * value)) :
  JS.has_key k (VObj (AskAQuestion.require f values errs)) =
  ((f =? k) && negb (JS.truthy (JS.get f values))) || JS.has_key k (VObj errs).
Proof.
  unfold AskAQuestion.require.
  destruct (JS.truthy (JS.get f values)); cbn [negb].
  - now rewrite andb_false_r.
  - now rewrite has_key_set, andb_true_r.
Qed.

Lemma set_all_required (f : string) (errs : list (string * value)) :
  Forall (fun p => snd p = VStr "Required") errs ->
  Forall (fun p => snd p = VStr "Required") (JS.set f (VStr "Required") errs).
Proof.
  induction 1 as [|[k v] errs Hp Ht IH]; simpl.
  - repeat constructor.
  - destruct (k =? f); constructor; auto.
Qed.

Lemma require_all_required (f : string) (values : value)
      (errs : list (string * value)) :
  Forall (fun p => snd p = VStr "Required") errs ->
  Forall (fun p => snd p = VStr "Required") (AskAQuestion.require f values errs).
Proof.
  intros H. unfold AskAQuestion.require.
  destruct (JS.truthy _); [exact H | now apply set_all_required].
Qed.

Lemma lookup_all_required (k : string) (v : value) :
  forall errs,
    Forall (fun p => snd p = VStr "Required") errs ->
    JS.lookup k errs = Some v -> v = VStr "Required".
Proof.
  induction 1 as [|[k' v'] errs Hp _ IH]; simpl; [discriminate|].
  destruct (k' =? k); [|exact IH]. simpl in Hp. congruence.
Qed.

Lemma set_not_nil (f : string) (x : value) (errs : list (string * value)) :
  JS.set f x errs <> [].
Proof. destruct errs as [|[k v] errs]; simpl; [|destruct (k =? f)]; discriminate. Qed.

(** X14: validate reports exactly the fields among name, subject,
    question and email that are empty (or missing), each with the message
    'Required', and nothing else; so the form is valid exactly when the
    four fields are filled, whatever the other fields hold. *)
Theorem validate_flags_exactly_the_empty_fields (values : value) :
  JS.nullish values = false ->
  exists errors,
    AskAQuestion.validate values = Ok (VObj errors)
    /\ (forall k,
           JS.has_key k (VObj errors) = true <->
           In k AskAQuestion.form_fields /\ JS.truthy (JS.get k values) = false)
    /\ (forall k,
           JS.has_key k (VObj errors) = true ->
           JS.get k (VObj errors) = VStr "Required")
    /\ (errors = [] <->
        forallb (fun k => JS.truthy (JS.get k values)) AskAQuestion.form_fields
        = true).
Proof.
  intros Hv. unfold AskAQuestion.validate. rewrite Hv.
  eexists. split; [reflexivity|]. split; [|split].
  - intros k. rewrite !has_key_require. split.
    + intros H.
      repeat (apply orb_true_iff in H; destruct H as [H|H]);
        try (apply andb_true_iff in H; destruct H as [E H];
             apply String.eqb_eq in E; subst k;
             apply negb_true_iff in H; split; [simpl; tauto | exact H]).
      discriminate.
    + intros [Hin Hf]. simpl in Hin.
      destruct Hin as [<-|[<-|[<-|[<-|[]]]]]; rewrite Hf; reflexivity.
  - intros k Hk. unfold JS.has_key, JS.get in *.
    destruct (JS.lookup k _) as [v|] eqn:E; [|discriminate].
    apply (lookup_all_required k v) in E; [exact E|].
    repeat apply require_all_required. constructor.
  - simpl. unfold AskAQuestion.require.
    destruct (JS.truthy (JS.get "name" values));
      destruct (JS.truthy (JS.get "subject" values));
      destruct (JS.truthy (JS.get "question" values));
      destruct (JS.truthy (JS.get "email" values)); simpl;
      split; intros H; try reflexivity; try discriminate;
      exfalso; revert H; apply set_not_nil.
Qed.

Lemma validate_witness :
  exists errors,
    AskAQuestion.validate
      (VObj [("name", VStr "Ada"); ("question", VStr ""); ("email", VStr "a@b.c");
             ("subject", VStr "Hi"); ("mary-chain", VStr "")])
    = Ok (VObj errors)
    /\ JS.has_key "question" (VObj errors) = true
    /\ JS.has_key "mary-chain" (VObj errors) = false.
Proof.
  destruct (validate_flags_exactly_the_empty_fields
              (VObj [("name", VStr "Ada"); ("question", VStr "");
                     ("email", VStr "a@b.c"); ("subject", VStr "Hi");
                     ("mary-chain", VStr "")]) eq_refl)
    as (errors & Hv & Hk & _).
  exists errors. split; [exact Hv|]. split.
  - apply Hk. split; [simpl; tauto | reflexivity].
  - destruct (JS.has_key "mary-chain" (VObj errors)) eqn:E; [|reflexivity].
    apply Hk in E. destruct E as [[E|[E|[E|[E|[]]]]] _]; discriminate.
Defined.

Section Submit.

Variable JSON_stringify : value -> value.

Let submit := AskAQuestion.onSubmit JSON_stringify.

(** X15: onSubmit returns at once when the hidden mary-chain field is
    filled: it posts nothing, captures nothing and calls no setter, so the
    state is as it was.  For any other values it posts exactly one body to
    the ask-a-question function, whatever the answer will be. *)
Theorem honeypot_drops_the_submission
        (answer : response) (pathname : string) (values : value)
        (st : AskAQuestion.state) :
  JS.nullish values = false ->
  (JS.truthy (JS.get "mary-chain" values) = true ->
   submit answer pathname values st = (Ok tt, st))
  /\
  (JS.truthy (JS.get "mary-chain" values) = false ->
   AskAQuestion.posted (snd (submit answer pathname values st)) =
   (AskAQuestion.posted st ++
    [(AskAQuestion.endpoint,
      JSON_stringify (AskAQuestion.submit_body pathname values st))])%list).
Proof.
  intros Hv. unfold submit, AskAQuestion.onSubmit. rewrite Hv.
  split; intros ->; [reflexivity|].
  destruct answer as [| |data]; try reflexivity.
  now destruct (JS.nullish data).
Qed.

(** X16: what the answer does to the form.  A JSON answer that is not null
    ends the submission: setSubmitting(false) is called, the e-mail counts
    as submitted, the timestamp becomes the answer's timestamp and one
    'Question asked' event is captured.  After a failed request or an
    answer that is not JSON, setSubmitting(false) is never called: the flag
    stays as setSubmitting(true) left it, nothing is captured and no state
    is set; a null answer does the same after the event has been
    captured. *)
Theorem answer_ends_or_strands_the_submission
        (answer : response) (pathname : string) (values : value)
        (st : AskAQuestion.state) :
  JS.nullish values = false ->
  JS.truthy (JS.get "mary-chain" values) = false ->
  let end_state := snd (submit answer pathname values st) in
  match answer with
  | Json data =>
      AskAQuestion.captured end_state
      = (AskAQuestion.captured st ++ ["Question asked"])%list
      /\ if JS.nullish data
         then fst (submit answer pathname values st) = Throw TypeError
              /\ AskAQuestion.isSubmitting end_state = true
              /\ AskAQuestion.timestamp end_state = AskAQuestion.timestamp st
              /\ AskAQuestion.emailSubmitted end_state
                 = AskAQuestion.emailSubmitted st
         else fst (submit answer pathname values st) = Ok tt
              /\ AskAQuestion.isSubmitting end_state = false
              /\ AskAQuestion.timestamp end_state = JS.get "timestamp" data
              /\ AskAQuestion.emailSubmitted end_state = true
  | NetworkFailure | NotJson =>
      (exists e, fst (submit answer pathname values st) = Throw e)
      /\ AskAQuestion.isSubmitting end_state = true
      /\ AskAQuestion.captured end_state = AskAQuestion.captured st
      /\ AskAQuestion.timestamp end_state = AskAQuestion.timestamp st
      /\ AskAQuestion.emailSubmitted end_state = AskAQuestion.emailSubmitted st
  end.
Proof.
  intros Hv Hh. unfold submit, AskAQuestion.onSubmit. rewrite Hv, Hh.
  destruct answer as [| |data]; simpl.
  - repeat split. now exists FetchError.
  - repeat split. now exists SyntaxError.
  - destruct (JS.nullish data); simpl; repeat split.
Qed.

(** X17: in the body that is posted, slug is the page's path and timestamp
    is the component's current timestamp, even when the form values have
    fields of those names; every other field of the values is posted as
    it is. *)
Theorem posted_body_fields (pathname : string) (values : value)
        (st : AskAQuestion.state) :
  JS.get "slug" (AskAQuestion.submit_body pathname values st) = VStr pathname
  /\ JS.get "timestamp" (AskAQuestion.submit_body pathname values st)
     = AskAQuestion.timestamp st
  /\ (forall ps k,
         values = VObj ps -> unique_keys ps ->
         k <> "slug" -> k <> "timestamp" ->
         JS.get k (AskAQuestion.submit_body pathname values st)
         = JS.get k values).
Proof.
  unfold AskAQuestion.submit_body. split; [|split].
  - unfold JS.get. rewrite lookup_set_other by discriminate.
    now rewrite lookup_set_same.
  - unfold JS.get. now rewrite lookup_set_same.
  - intros ps k -> Hu Hs Ht.
    rewrite <- (spread_copy_get k ps Hu). unfold JS.get.
    rewrite !lookup_set_other by congruence. reflexivity.
Qed.

(** X18: once a submission has been answered, the form shows the
    follow-up view exactly when the answer's timestamp is truthy, and the
    body of the next submission carries that timestamp, which ties the
    follow-up to the question. *)
Theorem follow_up_carries_the_timestamp
        (data : value) (pathname pathname' : string) (values values' : value)
        (st : AskAQuestion.state) :
  JS.nullish values = false ->
  JS.truthy (JS.get "mary-chain" values) = false ->
  JS.nullish data = false ->
  let answered := snd (submit (Json data) pathname values st) in
  AskAQuestion.render answered
  = (if JS.truthy (JS.get "timestamp" data)
     then AskAQuestion.QuestionSubmitted else AskAQuestion.AskQuestion)
  /\ JS.get "timestamp" (AskAQuestion.submit_body pathname' values' answered)
     = JS.get "timestamp" data.
Proof.
  intros Hv Hh Hd. unfold submit, AskAQuestion.onSubmit.
  rewrite Hv, Hh, Hd. cbn [snd]. split.
  - reflexivity.
  - unfold AskAQuestion.submit_body, JS.get at 1.
    now rewrite lookup_set_same.
Qed.

End Submit.

Lemma honeypot_witness :
  AskAQuestion.onSubmit Sample.JSON_stringify NetworkFailure "/docs"
    (VObj [("name", VStr "bot"); ("mary-chain", VStr "x")])
    AskAQuestion.initial
  = (Ok tt, AskAQuestion.initial).
Proof.
  exact (proj1 (honeypot_drops_the_submission
                  Sample.JSON_stringify NetworkFailure "/docs"
                  (VObj [("name", VStr "bot"); ("mary-chain", VStr "x")])
                  AskAQuestion.initial eq_refl)
               eq_refl).
Defined.

Lemma stranded_submission_witness :
  AskAQuestion.isSubmitting
    (snd (AskAQuestion.onSubmit Sample.JSON_stringify NotJson "/docs"
            sample_values AskAQuestion.initial)) = true.
Proof.
  exact (proj1 (proj2 (answer_ends_or_strands_the_submission
                         Sample.JSON_stringify NotJson "/docs" sample_values
                         AskAQuestion.initial eq_refl eq_refl))).
Defined.

Lemma posted_body_witness :
  JS.get "slug" (AskAQuestion.submit_body "/docs" sample_values AskAQuestion.initial)
  = VStr "/docs"
  /\ JS.get "email" (AskAQuestion.submit_body "/docs" sample_values AskAQuestion.initial)
     = VStr "a@b.c".
Proof.
  destruct (posted_body_fields "/docs" sample_values AskAQuestion.initial)
    as (Hs & _ & Hk).
  split; [exact Hs|].
  apply (Hk _ "email" eq_refl); try discriminate.
  repeat constructor; simpl; intuition discriminate.
Defined.

Lemma follow_up_witness :
  AskAQuestion.render
    (snd (AskAQuestion.onSubmit Sample.JSON_stringify
            (Json (VObj [("timestamp", VNum 1700)])) "/docs" sample_values
            AskAQuestion.initial))
  = AskAQuestion.QuestionSubmitted.
Proof.
  exact (proj1 (follow_up_carries_the_timestamp
                  Sample.JSON_stringify (VObj [("timestamp", VNum 1700)])
                  "/docs" "/docs" sample_values sample_values
                  AskAQuestion.initial eq_refl eq_refl eq_refl)).
Defined.

(** ** The embedded frame *)

(** An array has the string among its elements. *)
Lemma iframe_array_case (l : list value) :
  (if JS.truthy (VArr l) then DocsLayout.mentions_youtube (VArr l) else Ok false)
  = Ok (existsb (fun x => match x with
                          | VStr s => s =? "youtube.com"
                          | _ => false
                          end) l).
Proof. reflexivity. Qed.

(** X19: Iframe puts the frame in the 16:9 container exactly when its src
    is a string that contains "youtube.com" somewhere, or an array that
    has the string "youtube.com" among its elements; the inner iframe then
    gets the fixed class name in place of its own and every other prop
    unchanged.  With any other string or array, or with a src that is
    missing or otherwise falsy, it renders the bare iframe with its props
    unchanged.  A truthy src that is neither a string nor an array (a
    number, true, an object) has no indexOf and throws a TypeError. *)
Theorem iframe_wraps_youtube_sources (props : list (string * value)) :
  unique_keys props ->
  (forall s,
      JS.get "src" (VObj props) = VStr s ->
      exists inner,
        (forall k, k <> "className" ->
                   JS.get k (VObj inner) = JS.get k (VObj props))
        /\ if JS.occurs "youtube.com" s
           then DocsLayout.Iframe props =
                Ok (DocsLayout.Element "div"
                      [("style", DocsLayout.frame_style)]
                      [DocsLayout.Element "iframe" inner []])
                /\ JS.get "className" (VObj inner) = VStr DocsLayout.frame_class
           else DocsLayout.Iframe props = Ok (DocsLayout.Element "iframe" inner [])
                /\ JS.get "className" (VObj inner)
                   = JS.get "className" (VObj props))
  /\
  (forall l,
      JS.get "src" (VObj props) = VArr l ->
      exists inner,
        (forall k, k <> "className" ->
                   JS.get k (VObj inner) = JS.get k (VObj props))
        /\ if existsb (fun x => match x with
                                | VStr s => s =? "youtube.com"
                                | _ => false
                                end) l
           then DocsLayout.Iframe props =
                Ok (DocsLayout.Element "div"
                      [("style", DocsLayout.frame_style)]
                      [DocsLayout.Element "iframe" inner []])
                /\ JS.get "className" (VObj inner) = VStr DocsLayout.frame_class
           else DocsLayout.Iframe props = Ok (DocsLayout.Element "iframe" inner [])
                /\ JS.get "className" (VObj inner)
                   = JS.get "className" (VObj props))
  /\
  (JS.truthy (JS.get "src" (VObj props)) = false ->
   exists inner,
     DocsLayout.Iframe props = Ok (DocsLayout.Element "iframe" inner [])
     /\ forall k, JS.get k (VObj inner) = JS.get k (VObj props))
  /\
  (JS.truthy (JS.get "src" (VObj props)) = true ->
   is_string (JS.get "src" (VObj props)) = false ->
   (forall l, JS.get "src" (VObj props) <> VArr l) ->
   DocsLayout.Iframe props = Throw TypeError)
  /\
  ((exists inner,
       DocsLayout.Iframe props =
       Ok (DocsLayout.Element "div" [("style", DocsLayout.frame_style)]
             [DocsLayout.Element "iframe" inner []]))
   <->
   (exists s, JS.get "src" (VObj props) = VStr s
              /\ JS.occurs "youtube.com" s = true)
   \/ (exists l, JS.get "src" (VObj props) = VArr l
                 /\ In (VStr "youtube.com") l)).
Proof.
  intros Hu.
  assert (Hstr : forall s,
             JS.get "src" (VObj props) = VStr s ->
             exists inner,
               (forall k, k <> "className" ->
                          JS.get k (VObj inner) = JS.get k (VObj props))
               /\ if JS.occurs "youtube.com" s
                  then DocsLayout.Iframe props =
                       Ok (DocsLayout.Element "div"
                             [("style", DocsLayout.frame_style)]
                             [DocsLayout.Element "iframe" inner []])
                       /\ JS.get "className" (VObj inner)
                          = VStr DocsLayout.frame_class
                  else DocsLayout.Iframe props
                       = Ok (DocsLayout.Element "iframe" inner [])
                       /\ JS.get "className" (VObj inner)
                          = JS.get "className" (VObj props)).
  { intros s Hs. unfold DocsLayout.Iframe. rewrite Hs.
    assert (Hwrap : (if JS.truthy (VStr s)
                     then DocsLayout.mentions_youtube (VStr s) else Ok false)
                    = Ok (JS.occurs "youtube.com" s)).
    { destruct s as [|c s]; reflexivity. }
    rewrite Hwrap. cbn [rbind].
    destruct (JS.occurs "youtube.com" s).
    + eexists. split; [|split; [reflexivity|]].
      * intros k Hk. rewrite <- (spread_copy_get k props Hu). unfold JS.get.
        rewrite lookup_set_other by congruence. reflexivity.
      * unfold JS.get. now rewrite lookup_set_same.
    + eexists. split; [|split; [reflexivity|]].
      * intros k _. now apply spread_copy_get.
      * now apply spread_copy_get. }
  assert (Harr : forall l,
             JS.get "src" (VObj props) = VArr l ->
             exists inner,
               (forall k, k <> "className" ->
                          JS.get k (VObj inner) = JS.get k (VObj props))
               /\ if existsb (fun x => match x with
                                       | VStr s => s =? "youtube.com"
                                       | _ => false
                                       end) l
                  then DocsLayout.Iframe props =
                       Ok (DocsLayout.Element "div"
                             [("style", DocsLayout.frame_style)]
                             [DocsLayout.Element "iframe" inner []])
                       /\ JS.get "className" (VObj inner)
                          = VStr DocsLayout.frame_class
                  else DocsLayout.Iframe props
                       = Ok (DocsLayout.Element "iframe" inner [])
                       /\ JS.get "className" (VObj inner)
                          = JS.get "className" (VObj props)).
  { intros l Hl. unfold DocsLayout.Iframe. rewrite Hl, iframe_array_case.
    cbn [rbind].
    destruct (existsb _ l).
    + eexists. split; [|split; [reflexivity|]].
      * intros k Hk. rewrite <- (spread_copy_get k props Hu). unfold JS.get.
        rewrite lookup_set_other by congruence. reflexivity.
      * unfold JS.get. now rewrite lookup_set_same.
    + eexists. split; [|split; [reflexivity|]].
      * intros k _. now apply spread_copy_get.
      * now apply spread_copy_get. }
  assert (Hfalsy : JS.truthy (JS.get "src" (VObj props)) = false ->
                   exists inner,
                     DocsLayout.Iframe props
                     = Ok (DocsLayout.Element "iframe" inner [])
                     /\ forall k, JS.get k (VObj inner) = JS.get k (VObj props)).
  { intros Hf. unfold DocsLayout.Iframe. rewrite Hf. cbn [rbind].
    eexists. split; [reflexivity|]. intros k. now apply spread_copy_get. }
  assert (Hthrow : JS.truthy (JS.get "src" (VObj props)) = true ->
                   is_string (JS.get "src" (VObj props)) = false ->
                   (forall l, JS.get "src" (VObj props) <> VArr l) ->
                   DocsLayout.Iframe props = Throw TypeError).
  { intros Ht Hs Ha. unfold DocsLayout.Iframe. rewrite Ht.
    destruct (JS.get "src" (VObj props)) as [| | | | |l|]; try reflexivity.
    + discriminate.
    + now destruct (Ha l). }
  split; [exact Hstr|]. split; [exact Harr|]. split; [exact Hfalsy|].
  split; [exact Hthrow|].
  split.
  - intros [inner Hw].
    destruct (JS.get "src" (VObj props)) as [| |b|n|s|l|ps] eqn:Es.
    + destruct (Hfalsy eq_refl) as (i & Hi & _). congruence.
    + destruct (Hfalsy eq_refl) as (i & Hi & _). congruence.
    + destruct b.
      * rewrite Hthrow in Hw; [discriminate | reflexivity | reflexivity |].
        intros l. discriminate.
      * destruct (Hfalsy eq_refl) as (i & Hi & _). congruence.
    + destruct (JS.truthy (VNum n)) eqn:Et.
      * rewrite Hthrow in Hw; [discriminate | reflexivity | reflexivity |].
        intros l. discriminate.
      * destruct (Hfalsy eq_refl) as (i & Hi & _). congruence.
    + left. exists s. split; [reflexivity|].
      destruct (Hstr s eq_refl) as (i & _ & Hi).
      destruct (JS.occurs "youtube.com" s); [reflexivity|].
      destruct Hi as [Hi _]. congruence.
    + right. exists l. split; [reflexivity|].
      destruct (Harr l eq_refl) as (i & _ & Hi).
      destruct (existsb _ l) eqn:Ex.
      * apply existsb_exists in Ex. destruct Ex as (x & Hx & Hyt).
        destruct x; try discriminate. apply String.eqb_eq in Hyt. now subst.
      * destruct Hi as [Hi _]. congruence.
    + rewrite Hthrow in Hw; [discriminate | reflexivity | reflexivity |].
      intros l. discriminate.
  - intros [(s & Hs & Ho)|(l & Hl & Hin)].
    + destruct (Hstr s Hs) as (i & _ & Hi). rewrite Ho in Hi.
      exists i. exact (proj1 Hi).
    + destruct (Harr l Hl) as (i & _ & Hi).
      assert (Ex : existsb (fun x => match x with
                                     | VStr s => s =? "youtube.com"
                                     | _ => false
                                     end) l = true).
      { apply existsb_exists. exists (VStr "youtube.com").
        split; [exact Hin | apply String.eqb_refl]. }
      rewrite Ex in Hi. exists i. exact (proj1 Hi).
Qed.

Lemma iframe_witness :
  exists inner,
    DocsLayout.Iframe [("src", VStr "https://notyoutube.com/embed/1");
                       ("className", VStr "mine");
                       ("title", VStr "demo")] =
    Ok (DocsLayout.Element "div" [("style", DocsLayout.frame_style)]
          [DocsLayout.Element "iframe" inner []])
    /\ JS.get "className" (VObj inner) = VStr DocsLayout.frame_class.
Proof.
  assert (Hu : unique_keys [("src", VStr "https://notyoutube.com/embed/1");
                            ("className", VStr "mine");
                            ("title", VStr "demo")])
    by (repeat constructor; simpl; intuition discriminate).
  destruct (proj1 (iframe_wraps_youtube_sources _ Hu) _ eq_refl)
    as (inner & _ & H).
  exists inner. exact H.
Defined.
